(** * Driftwood dialogue orchestration: a shallow embedding

    The two Python programs of the repository are embedded as Rocq
    functions:

    - [App]: [app.py], the Flask/SocketIO server (process-wide conversation
      table, prompt composition, streamed generation, the [start_dialogue]
      and [continue_dialogue] handlers with their background tasks);
    - [Backend]: [dialogue-backend.py], the server-sent-events variant
      (prompt composition and the [/generate] loop).

    Modelling conventions.
    - A Python [str] is a list of Unicode code points, so that slicing
      ([s[:500]]) and concatenation are the list operations.
    - A Python [dict] used as a map is a [gmap]; [d[k]] raises [KeyError]
      on a missing key and [d.get(k, v)] falls back to [v].
    - Python control flow with exceptions and mutation of the module-level
      tables is a state-and-exception monad [M] over the record [world].
    - What the process receives from outside (the drawn uuid, the clock, the
      lines of the backend's HTTP stream) is an explicit argument.
    - A background thread is run to completion at the point where it is
      started: handlers are issued one after the other, each task ending
      before the next call.
    - Pauses ([time.sleep]) and the HTML routes are left out.

    Further modules cover the rest of the two programs:

    - [Server]: start-up of [app.py] ([load_metadata], the backend
      address), the session and room handlers and the health check;
    - [Html]: how [dialogue-backend.py] turns the model's answer into
      HTML paragraphs;
    - [Notions]: predicates used to state properties of [App].

    The definitions come first ([App], [Backend], [Notions], [Server],
    [Html]); the properties follow ([AppTheory], [BackendTheory],
    [AppMore], [ServerTheory], [BackendMore]). *)

From Stdlib Require Import ZArith NArith List String Ascii Bool Lia.
From stdpp Require Import base option list gmap fin_maps.

Set Default Proof Using "Type".
Set Warnings "-register-all".

(** ** Python strings *)

Definition char : Type := N.
Definition str : Type := list char.

(** A literal of the source text, character by character. *)
Definition lit (s : string) : str :=
  List.map N_of_ascii (list_ascii_of_string s).

Definition nl : str := [10%N].
Definition dq : str := [34%N].

(** [sep.join(parts)] *)
Fixpoint join (sep : str) (parts : list str) : str :=
  match parts with
  | [] => []
  | [p] => p
  | p :: ps => p ++ sep ++ join sep ps
  end.

(** [s[:n]] *)
Definition slice_to (n : nat) (s : str) : str := take n s.

Fixpoint starts_with (p s : str) : bool :=
  match p, s with
  | [], _ => true
  | _ :: _, [] => false
  | a :: p', b :: s' => (a =? b)%N && starts_with p' s'
  end.

(** [p in s] for two strings: [p] occurs as a contiguous run of [s]. *)
Fixpoint str_contains (p s : str) : bool :=
  starts_with p s ||
  match s with
  | [] => false
  | _ :: s' => str_contains p s'
  end.

(** Python truth value of a list. *)
Definition truthy {A} (l : list A) : bool :=
  match l with
  | [] => false
  | _ :: _ => true
  end.

(** ** JSON values, as [json.loads] builds them *)

Inductive json : Type :=
  | JNull
  | JBool (b : bool)
  | JNum (n : Z)
  | JStr (s : str)
  | JArr (items : list json)
  | JObj (fields : list (str * json)).

(** An object is kept as its fields in document order; as in the [dict]
    built by [json.loads], a later field of the same name wins. *)
Fixpoint obj_get (k : str) (fields : list (str * json)) : option json :=
  match fields with
  | [] => None
  | (k', v) :: rest =>
      match obj_get k rest with
      | Some v' => Some v'
      | None => if decide (k' = k) then Some v else None
      end
  end.

Definition is_str (k : str) (j : json) : bool :=
  match j with
  | JStr s => bool_decide (s = k)
  | _ => false
  end.

(** ** Exceptions *)

Inductive exn : Type :=
  | KeyError (key : str)
  | UnboundLocalError (variable : str)
  | TypeError
  | RequestError (detail : str)
  | UnicodeDecodeError (detail : str).

Inductive outcome (A : Type) : Type :=
  | Returned (a : A)
  | Raised (e : exn).
Arguments Returned {A} a.
Arguments Raised {A} e.

(** [d[k]] on a dict. *)
Definition getitem {V} (d : gmap str V) (k : str) : outcome V :=
  match d !! k with
  | Some v => Returned v
  | None => Raised (KeyError k)
  end.

(** ** Persona profiles

    An entry of a catalog is a JSON object; a field that the object does
    not have is [None], which is what [entry.get(field, default)] tests. *)

Record philosopher : Type := {
  phil_name : option str;
  phil_era : option str;
  phil_key_concepts : option (list str);
  phil_beliefs : option str;
  phil_style : option str
}.

Record author : Type := {
  auth_name : option str;
  auth_characteristics : option str;
  auth_voice : option str
}.

(** The empty dict [{}] that [CATALOG.get(key, {})] falls back to. *)
Definition no_philosopher : philosopher :=
  {| phil_name := None; phil_era := None; phil_key_concepts := None;
     phil_beliefs := None; phil_style := None |}.

Definition no_author : author :=
  {| auth_name := None; auth_characteristics := None; auth_voice := None |}.

(** Reading a local variable that may not have been assigned on the path
    taken. *)
Definition load_local (name : str) (value : option str) : outcome str :=
  match value with
  | Some v => Returned v
  | None => Raised (UnboundLocalError name)
  end.

(** ** Exceptions over mutable state

    A computation reads and updates a state of type [S] and either returns
    or raises; what it did to the state before raising stays done. *)

Definition state_exn (S A : Type) : Type := S -> outcome A * S.

Section state_exn.
Context {S : Type}.

Definition ret {A} (a : A) : state_exn S A := fun w => (Returned a, w).

Definition raise {A} (e : exn) : state_exn S A := fun w => (Raised e, w).

Definition bind {A B} (m : state_exn S A) (k : A -> state_exn S B) :
    state_exn S B :=
  fun w =>
    match m w with
    | (Returned a, w') => k a w'
    | (Raised e, w') => (Raised e, w')
    end.

(** A pure computation that may raise. *)
Definition lift {A} (o : outcome A) : state_exn S A := fun w => (o, w).

(** [try: body / except Exception as e: handler(e)] *)
Definition try_except {A} (body : state_exn S A)
    (handler : exn -> state_exn S A) : state_exn S A :=
  fun w =>
    match body w with
    | (Returned a, w') => (Returned a, w')
    | (Raised e, w') => handler e w'
    end.

(** The state after a computation, whatever its outcome, and the outcome. *)
Definition after {A} (m : state_exn S A) (w : S) : S := snd (m w).

Definition result {A} (m : state_exn S A) (w : S) : outcome A := fst (m w).

End state_exn.

Notation "'let*' x ':=' m 'in' k" := (bind m (fun x => k))
  (at level 10, x name, m at level 100, k at level 200).

(** * app.py *)

Module App.

Local Open Scope Z_scope.

(** ** Embedded catalogs ([get_default_philosophers], [get_default_authors]) *)

Definition default_philosopher_rows : list (str * philosopher) :=
  [
   (lit "socrates",
    {| phil_name := Some (lit "Socrates");
       phil_era := Some (lit "Ancient Greek (470-399 BCE)");
       phil_key_concepts := Some ([lit "know thyself"; lit "examined life"; lit "virtue as knowledge"; lit "dialectical method"]);
       phil_beliefs := Some (lit "wisdom through acknowledging ignorance, moral virtue, divine inner voice");
       phil_style := Some (lit "questioning, ironic, humble yet penetrating") |});
   (lit "plato",
    {| phil_name := Some (lit "Plato");
       phil_era := Some (lit "Ancient Greek (428-348 BCE)");
       phil_key_concepts := Some ([lit "theory of Forms"; lit "ideal state"; lit "philosopher kings"; lit "allegory of the cave"]);
       phil_beliefs := Some (lit "eternal Forms, tripartite soul, justice as harmony");
       phil_style := Some (lit "idealistic, systematic, metaphorical") |});
   (lit "aristotle",
    {| phil_name := Some (lit "Aristotle");
       phil_era := Some (lit "Ancient Greek (384-322 BCE)");
       phil_key_concepts := Some ([lit "golden mean"; lit "eudaimonia"; lit "potentiality and actuality"; lit "four causes"]);
       phil_beliefs := Some (lit "virtue ethics, teleology, logic as tool for truth");
       phil_style := Some (lit "systematic, empirical, categorizing") |});
   (lit "marcus_aurelius",
    {| phil_name := Some (lit "Marcus Aurelius");
       phil_era := Some (lit "Roman (121-180 CE)");
       phil_key_concepts := Some ([lit "stoic virtue"; lit "cosmic perspective"; lit "present moment"; lit "duty"]);
       phil_beliefs := Some (lit "stoicism, universal reason, acceptance of fate");
       phil_style := Some (lit "personal, practical, contemplative") |});
   (lit "buddha",
    {| phil_name := Some (lit "Siddhartha Gautama (Buddha)");
       phil_era := Some (lit "Ancient Indian (563-483 BCE)");
       phil_key_concepts := Some ([lit "four noble truths"; lit "eightfold path"; lit "non-self"; lit "dependent origination"]);
       phil_beliefs := Some (lit "middle way, liberation from suffering");
       phil_style := Some (lit "compassionate, practical, metaphorical") |});
   (lit "confucius",
    {| phil_name := Some (lit "Confucius");
       phil_era := Some (lit "Ancient Chinese (551-479 BCE)");
       phil_key_concepts := Some ([lit "ren"; lit "li"; lit "junzi"; lit "rectification of names"]);
       phil_beliefs := Some (lit "social harmony, filial piety, moral cultivation");
       phil_style := Some (lit "practical, social, virtue-focused") |});
   (lit "descartes",
    {| phil_name := Some (lit "Ren" ++ [233%N] ++ lit " Descartes");
       phil_era := Some (lit "17th century (1596-1650)");
       phil_key_concepts := Some ([lit "cogito ergo sum"; lit "methodical doubt"; lit "mind-body dualism"; lit "clear and distinct ideas"]);
       phil_beliefs := Some (lit "rationalism, mathematical certainty in philosophy");
       phil_style := Some (lit "methodical, skeptical progressing to certainty") |});
   (lit "hume",
    {| phil_name := Some (lit "David Hume");
       phil_era := Some (lit "18th century Scottish (1711-1776)");
       phil_key_concepts := Some ([lit "impressions and ideas"; lit "bundle theory"; lit "is-ought problem"; lit "miracles critique"]);
       phil_beliefs := Some (lit "empiricism, sentiment over reason in morality");
       phil_style := Some (lit "skeptical, witty, empirical") |});
   (lit "kant",
    {| phil_name := Some (lit "Immanuel Kant");
       phil_era := Some (lit "18th century German (1724-1804)");
       phil_key_concepts := Some ([lit "categorical imperative"; lit "synthetic a priori"; lit "phenomena/noumena"; lit "transcendental idealism"]);
       phil_beliefs := Some (lit "moral duty, limits of reason, human dignity");
       phil_style := Some (lit "systematic, precise, architectonic") |});
   (lit "kierkegaard",
    {| phil_name := Some (lit "S" ++ [248%N] ++ lit "ren Kierkegaard");
       phil_era := Some (lit "19th century Danish (1813-1855)");
       phil_key_concepts := Some ([lit "leap of faith"; lit "anxiety"; lit "stages of life"; lit "subjective truth"]);
       phil_beliefs := Some (lit "Christian existentialism, individual over system");
       phil_style := Some (lit "passionate, paradoxical, literary") |});
   (lit "nietzsche",
    {| phil_name := Some (lit "Friedrich Nietzsche");
       phil_era := Some (lit "19th century German (1844-1900)");
       phil_key_concepts := Some ([lit "will to power"; lit "eternal recurrence"; [252%N] ++ lit "bermensch"; lit "master/slave morality"]);
       phil_beliefs := Some (lit "life affirmation, critique of Christianity, perspectivism");
       phil_style := Some (lit "aphoristic, provocative, poetic") |});
   (lit "wittgenstein",
    {| phil_name := Some (lit "Ludwig Wittgenstein");
       phil_era := Some (lit "20th century Austrian-British (1889-1951)");
       phil_key_concepts := Some ([lit "language games"; lit "forms of life"; lit "showing vs saying"; lit "private language"]);
       phil_beliefs := Some (lit "meaning as use, philosophy as therapy");
       phil_style := Some (lit "precise, enigmatic, therapeutic") |});
   (lit "sartre",
    {| phil_name := Some (lit "Jean-Paul Sartre");
       phil_era := Some (lit "20th century French (1905-1980)");
       phil_key_concepts := Some ([lit "existence precedes essence"; lit "bad faith"; lit "radical freedom"; lit "the Look"]);
       phil_beliefs := Some (lit "atheistic existentialism, condemned to freedom");
       phil_style := Some (lit "phenomenological, dramatic, engaged") |});
   (lit "de_beauvoir",
    {| phil_name := Some (lit "Simone de Beauvoir");
       phil_era := Some (lit "20th century French (1908-1986)");
       phil_key_concepts := Some ([lit "situated freedom"; lit "ethics of ambiguity"; lit "woman as Other"; lit "bad faith"]);
       phil_beliefs := Some (lit "existentialist feminism, ethics of liberation");
       phil_style := Some (lit "phenomenological, feminist, engaged") |});
   (lit "arendt",
    {| phil_name := Some (lit "Hannah Arendt");
       phil_era := Some (lit "20th century German-American (1906-1975)");
       phil_key_concepts := Some ([lit "banality of evil"; lit "vita activa"; lit "public/private"; lit "plurality"]);
       phil_beliefs := Some (lit "importance of political action, thinking without banisters");
       phil_style := Some (lit "analytical, historical, politically engaged") |})
  ].

Definition default_author_rows : list (str * author) :=
  [
   (lit "austen",
    {| auth_name := Some (lit "Jane Austen");
       auth_characteristics := Some (lit "free indirect discourse, social observation, wit, irony");
       auth_voice := Some (lit "satirical, mannered, precise, socially astute") |});
   (lit "dickens",
    {| auth_name := Some (lit "Charles Dickens");
       auth_characteristics := Some (lit "elaborate descriptions, sentiment, social criticism, memorable characters");
       auth_voice := Some (lit "Victorian, expansive, moralistic, humorous") |});
   (lit "wilde",
    {| auth_name := Some (lit "Oscar Wilde");
       auth_characteristics := Some (lit "epigrams, paradoxes, aestheticism, wit");
       auth_voice := Some (lit "witty, decadent, paradoxical, sophisticated") |});
   (lit "hemingway",
    {| auth_name := Some (lit "Ernest Hemingway");
       auth_characteristics := Some (lit "short sentences, simple words, concrete imagery, iceberg theory");
       auth_voice := Some (lit "direct, understated, masculine, journalistic") |});
   (lit "woolf",
    {| auth_name := Some (lit "Virginia Woolf");
       auth_characteristics := Some (lit "stream of consciousness, long flowing sentences, interior monologue, time fluidity");
       auth_voice := Some (lit "lyrical, introspective, modernist, feminist") |});
   (lit "joyce",
    {| auth_name := Some (lit "James Joyce");
       auth_characteristics := Some (lit "stream of consciousness, experimental, mythic parallels, language play");
       auth_voice := Some (lit "modernist, Irish, complex, revolutionary") |});
   (lit "kafka",
    {| auth_name := Some (lit "Franz Kafka");
       auth_characteristics := Some (lit "surreal situations, bureaucratic nightmares, alienation, ambiguity");
       auth_voice := Some (lit "anxious, precise, dreamlike, oppressive") |});
   (lit "tolkien",
    {| auth_name := Some (lit "J.R.R. Tolkien");
       auth_characteristics := Some (lit "elevated language, world-building detail, mythic scope, linguistic richness");
       auth_voice := Some (lit "epic, archaic touches, moral clarity, eucatastrophe") |});
   (lit "vonnegut",
    {| auth_name := Some (lit "Kurt Vonnegut");
       auth_characteristics := Some (lit "simple syntax, dark humor, science fiction elements, fatalism");
       auth_voice := Some (lit "sardonic, humane, anti-war, accessible") |});
   (lit "borges",
    {| auth_name := Some (lit "Jorge Luis Borges");
       auth_characteristics := Some (lit "labyrinths, mirrors, infinite recursion, scholarly tone");
       auth_voice := Some (lit "erudite, metaphysical, playful, mysterious") |});
   (lit "marquez",
    {| auth_name := Some (lit "Gabriel Garc" ++ [237%N] ++ lit "a M" ++ [225%N] ++ lit "rquez");
       auth_characteristics := Some (lit "magical realism, cyclical time, lush descriptions, myth blending");
       auth_voice := Some (lit "sensual, fantastical, political, Latin American") |});
   (lit "baldwin",
    {| auth_name := Some (lit "James Baldwin");
       auth_characteristics := Some (lit "passionate rhetoric, long sentences, biblical cadence, moral urgency");
       auth_voice := Some (lit "prophetic, eloquent, confrontational, compassionate") |});
   (lit "calvino",
    {| auth_name := Some (lit "Italo Calvino");
       auth_characteristics := Some (lit "lightness, multiplicity, metafiction, combinatorial");
       auth_voice := Some (lit "playful, philosophical, fantastical, precise") |});
   (lit "morrison",
    {| auth_name := Some (lit "Toni Morrison");
       auth_characteristics := Some (lit "lyrical prose, nonlinear narrative, African American experience, memory");
       auth_voice := Some (lit "poetic, haunting, politically engaged, spiritual") |});
   (lit "le_guin",
    {| auth_name := Some (lit "Ursula K. Le Guin");
       auth_characteristics := Some (lit "anthropological depth, gender exploration, ecological themes, clarity");
       auth_voice := Some (lit "wise, speculative, feminist, Taoist-influenced") |});
   (lit "murakami",
    {| auth_name := Some (lit "Haruki Murakami");
       auth_characteristics := Some (lit "surreal elements, parallel worlds, jazz references, alienation");
       auth_voice := Some (lit "dreamlike, contemporary, Japanese-Western fusion") |});
   (lit "ishiguro",
    {| auth_name := Some (lit "Kazuo Ishiguro");
       auth_characteristics := Some (lit "unreliable narrators, emotional restraint, memory, subtle reveals");
       auth_voice := Some (lit "understated, melancholic, precise, haunting") |});
   (lit "atwood",
    {| auth_name := Some (lit "Margaret Atwood");
       auth_characteristics := Some (lit "dystopian elements, feminist themes, environmental concerns, sharp prose");
       auth_voice := Some (lit "incisive, speculative, Canadian, politically aware") |});
   (lit "butler",
    {| auth_name := Some (lit "Octavia Butler");
       auth_characteristics := Some (lit "Afrofuturism, power dynamics, biological themes, survival");
       auth_voice := Some (lit "visionary, grounded, African American, transformative") |});
   (lit "pynchon",
    {| auth_name := Some (lit "Thomas Pynchon");
       auth_characteristics := Some (lit "paranoia, encyclopedic, conspiracy, entropy");
       auth_voice := Some (lit "complex, paranoid, satirical, postmodern") |})
  ].

Definition get_default_philosophers : gmap str philosopher :=
  list_to_map default_philosopher_rows.

Definition get_default_authors : gmap str author :=
  list_to_map default_author_rows.

(** ** Conversations, events and the process state *)

(** One entry of a conversation's ['history'] list. *)
Record turn : Type := {
  speaker : Z;
  content : str;
  timestamp : str
}.

(** One value of the [active_conversations] table. *)
Record conversation : Type := {
  id : str;
  config : gmap str str;
  history : list turn;
  created_at : str;
  exchange_count : Z
}.

(** The ['error'] field of a [generation_error] event: a literal of the
    source, or [str(e)] of the exception caught. *)
Inductive error_text : Type :=
  | Text (s : str)
  | StrOf (e : exn).

Inductive event : Type :=
  | dialogue_started (conversation_id : str) (data : gmap str str)
  | generation_start (spk : Z) (philosopher_field : str)
  | message_chunk (spk : Z) (chunk_content : str) (conversation_id : str)
  | generation_complete (spk : Z) (full_content : str)
  | generation_error (error : error_text).

(** [emit(...)] inside a handler answers the requesting client;
    [socketio.emit(..., room=r)] broadcasts to the members of room [r]. *)
Inductive target : Type :=
  | to_caller (sid : str)
  | to_room (room : str).

(** The module-level state, with the two effects on the outside kept as
    logs: the events emitted and the requests posted to the generation
    backend (model, prompt). *)
Record world : Type := {
  active_conversations : gmap str conversation;
  emitted : list (target * event);
  posted : list (str * str)
}.

Definition initial_world : world :=
  {| active_conversations := ∅; emitted := []; posted := [] |}.

(** ** The monad of handlers and background tasks *)

Abbreviation M := (state_exn world).

Definition emit (tgt : target) (ev : event) : M unit :=
  fun w =>
    (Returned tt,
     {| active_conversations := active_conversations w;
        emitted := emitted w ++ [(tgt, ev)];
        posted := posted w |}).

(** [requests.post(... json={"model": model, "prompt": prompt, ...})] *)
Definition post (model prompt : str) : M unit :=
  fun w =>
    (Returned tt,
     {| active_conversations := active_conversations w;
        emitted := emitted w;
        posted := posted w ++ [(model, prompt)] |}).

Definition get_conversations : M (gmap str conversation) :=
  fun w => (Returned (active_conversations w), w).

Definition put_conversations (t : gmap str conversation) : M unit :=
  fun w =>
    (Returned tt,
     {| active_conversations := t; emitted := emitted w; posted := posted w |}).

(** How a background task ended. *)
Inductive task : Type :=
  | NotStarted
  | Finished
  | Crashed (e : exn).

(** [Thread(target=body).start()]: an exception of the body ends the
    thread and reaches nobody. *)
Definition run_thread (body : M unit) : M task :=
  fun w =>
    match body w with
    | (Returned _, w') => (Returned Finished, w')
    | (Raised e, w') => (Returned (Crashed e), w')
    end.

(** ** Prompt composition ([DialogueGenerator.create_prompt]) *)

(** The text assigned to the local [front_matter]; the literal ends with a
    newline. *)
Definition front_matter_text : str :=
  join nl
    [lit "Never mention the name of the philospher. You are not describing";
     lit "their views, instead you are embodying them.";
     [];
     lit "Never mention the name of the author. You are not describing";
     lit "their views, instead you are embodying them.";
     [];
     lit "Note that of greatest importance is to distingusih that your task is to embody";
     lit "    the ideas/stance/arguments/beliefs/values of the philosopher (or likely ideas on the topic)";
     lit "    NOT their writing/communication style at all!";
     [];
     lit "Note that of greatest importance is to distingusih that your task is to embody";
     lit "    the writing/communication/dialogue style of the author (acting as a character in one of their books might)";
     lit "    NOT their ideas/stance/arguments/beliefs/values at all!";
     [];
     lit "Separate components, the philosopher speaking through the author.";
     lit "The author studying the philosopher thoroughly and creating a character in one of their novels portraying them covertly.";
     [];
     lit "There is no commentary around the writing, only the content itself. The dialogue is not quoted. There is no narrator or descriptions of setting other than what naturally flows from the conversation.";
     [];
     lit "This is conversational. Brief bursts of dialogue. One to three sentences. Posing questions to each other. Answering the others questions and moving on with a believable and interesting segue.";
     []].

(** The response template, up to the quotation of the previous turn. *)
Definition response_head (name era author_name front_matter : str) : str :=
  lit "You are " ++ name ++ lit ", the " ++ era ++ lit " philosopher." ++ nl ++
  lit "Express your philosophical ideas through the author " ++ author_name ++
  lit "'s literary style." ++ nl ++
  nl ++
  front_matter ++ nl ++
  nl ++
  lit "Previous statement to respond to:" ++ nl.

(** The response template, after the quotation of the previous turn. *)
Definition response_tail (author_name topic : str) : str :=
  nl ++
  nl ++
  lit "Topic: " ++ dq ++ topic ++ dq ++ nl ++
  nl ++
  lit "Respond in 2-3 sentences that:" ++ nl ++
  lit "1. Engage directly with the previous philosophical position" ++ nl ++
  lit "2. Present your perspective using " ++ author_name ++
  lit "'s narrative techniques" ++ nl ++
  lit "3. Use literary style to make philosophical concepts accessible" ++ nl ++
  lit "4. Advance the dialogue while maintaining philosophical authenticity" ++ nl ++
  nl ++
  lit "Write in a style both philosophically authentic and literarily engaging.".

Definition response_template
    (name era author_name front_matter last_content topic : str) : str :=
  response_head name era author_name front_matter ++
  dq ++ last_content ++ dq ++
  response_tail author_name topic.

Definition opening_template
    (name era author_name front_matter topic : str) : str :=
  lit "You are " ++ name ++ lit ", the " ++ era ++ lit " philosopher." ++ nl ++
  lit "Express your philosophical ideas through " ++ author_name ++
  lit "'s literary style." ++ nl ++
  nl ++
  front_matter ++ nl ++
  nl ++
  lit "Topic for discussion: " ++ dq ++ topic ++ dq ++ nl ++
  nl ++
  lit "Craft an opening statement (2-3 sentences) that:" ++ nl ++
  lit "1. Introduces your philosophical perspective on this topic" ++ nl ++
  lit "2. Uses " ++ author_name ++
  lit "'s narrative techniques to engage modern readers  " ++ nl ++
  lit "3. Poses questions or observations inviting deeper exploration" ++ nl ++
  lit "4. Makes classical wisdom immediately relevant" ++ nl ++
  nl ++
  lit "Write in a style both philosophically authentic and literarily engaging.".

Section with_metadata.

(** [PHILOSOPHERS, AUTHORS = load_metadata()]: the content of the two JSON
    files when they are present, the embedded catalogs otherwise. *)
Context (PHILOSOPHERS : gmap str philosopher) (AUTHORS : gmap str author).

(** The local [front_matter] is assigned in the response branch only; the
    other branch reads it unassigned. *)
Definition create_prompt (philosopher_key author_key topic : str)
    (history : list turn) (is_response : bool) : outcome str :=
  let phil := default no_philosopher (PHILOSOPHERS !! philosopher_key) in
  let auth := default no_author (AUTHORS !! author_key) in
  if is_response && truthy history then
    let last_message := last history in
    let last_content :=
      match last_message with
      | Some m => slice_to 500%nat (content m)
      | None => []
      end in
    let front_matter := Some front_matter_text in
    match load_local (lit "front_matter") front_matter with
    | Returned fm =>
        Returned (response_template
                    (default philosopher_key (phil_name phil))
                    (default [] (phil_era phil))
                    (default author_key (auth_name auth))
                    fm last_content topic)
    | Raised e => Raised e
    end
  else
    let front_matter := None in
    match load_local (lit "front_matter") front_matter with
    | Returned fm =>
        Returned (opening_template
                    (default philosopher_key (phil_name phil))
                    (default [] (phil_era phil))
                    (default author_key (auth_name auth))
                    fm topic)
    | Raised e => Raised e
    end.

(** ** Streamed generation ([DialogueGenerator.generate_stream]) *)

(** One item of [response.iter_lines()], by what the loop body makes of
    it: the empty line that [if line:] drops, a line on which
    [json.loads] raises [JSONDecodeError], a line on which it raises
    another exception (the items are bytes: on bytes that are not in a
    Unicode encoding it raises [UnicodeDecodeError], which is no
    [JSONDecodeError]), a line that parses. *)
Inductive line : Type :=
  | Empty
  | NotJson
  | Unreadable (e : exn)
  | Json (value : json).

(** What one call of [generate_stream] receives from outside: the lines
    the backend delivers, whether the transport then raises (an exception
    of [requests.post] itself is the case of no line delivered), and the
    clock read for the turn's timestamp. *)
Record generation : Type := {
  stream : list line;
  fault : option str;
  now : str
}.

Definition response_key : str := lit "response".

(** ['response' in chunk] *)
Definition contains_response (chunk : json) : outcome bool :=
  match chunk with
  | JObj fields => Returned (bool_decide (is_Some (obj_get response_key fields)))
  | JArr items => Returned (existsb (is_str response_key) items)
  | JStr s => Returned (str_contains response_key s)
  | JNull | JBool _ | JNum _ => Raised TypeError
  end.

(** [chunk['response']] *)
Definition getitem_response (chunk : json) : outcome json :=
  match chunk with
  | JObj fields =>
      match obj_get response_key fields with
      | Some v => Returned v
      | None => Raised (KeyError response_key)
      end
  | _ => Raised TypeError
  end.

(** The body of [for line in response.iter_lines():], threading the local
    [full_content]; [full_content += content] raises [TypeError] unless
    [content] is a string. *)
Definition on_line (conversation_id : str) (spk : Z) (full_content : str)
    (l : line) : M str :=
  match l with
  | Empty => ret full_content
  | NotJson => ret full_content
  | Unreadable e => raise e
  | Json chunk =>
      let* present := lift (contains_response chunk) in
      if present : bool then
        let* content := lift (getitem_response chunk) in
        match content with
        | JStr text =>
            let* _ := emit (to_room conversation_id)
                        (message_chunk spk text conversation_id) in
            ret (full_content ++ text)
        | _ => raise TypeError
        end
      else ret full_content
  end.

Fixpoint iter_lines (conversation_id : str) (spk : Z) (ls : list line)
    (full_content : str) : M str :=
  match ls with
  | [] => ret full_content
  | l :: rest =>
      let* full_content' := on_line conversation_id spk full_content l in
      iter_lines conversation_id spk rest full_content'
  end.

(** [if conversation_id in active_conversations:
       active_conversations[conversation_id]['history'].append(t)] *)
Definition append_turn (conversation_id : str) (t : turn) : M unit :=
  let* table := get_conversations in
  match table !! conversation_id with
  | Some c =>
      put_conversations
        (<[conversation_id :=
             {| id := id c; config := config c;
                history := history c ++ [t];
                created_at := created_at c;
                exchange_count := exchange_count c |}]> table)
  | None => ret tt
  end.

Definition generate_stream (model prompt conversation_id : str) (spk : Z)
    (g : generation) : M (option str) :=
  try_except
    (let* _ := emit (to_room conversation_id)
                 (generation_start spk conversation_id) in
     let* _ := post model prompt in
     let* full_content := iter_lines conversation_id spk (stream g) [] in
     let* _ := match fault g with
               | Some detail => raise (RequestError detail)
               | None => ret tt
               end in
     let* _ := append_turn conversation_id
                 {| speaker := spk; content := full_content;
                    timestamp := now g |} in
     let* _ := emit (to_room conversation_id)
                 (generation_complete spk full_content) in
     ret (Some full_content))
    (fun e =>
       let* _ := emit (to_room conversation_id)
                   (generation_error (StrOf e)) in
       ret None).

(** *** What a generation amounts to

    The loop of [generate_stream] read without its effects: the text a
    line contributes, the fragments received before the stream ends or an
    exception is raised, and that exception. *)

Definition fragment_of (l : line) : outcome (option str) :=
  match l with
  | Empty => Returned None
  | NotJson => Returned None
  | Unreadable e => Raised e
  | Json chunk =>
      match contains_response chunk with
      | Returned true =>
          match getitem_response chunk with
          | Returned (JStr text) => Returned (Some text)
          | Returned _ => Raised TypeError
          | Raised e => Raised e
          end
      | Returned false => Returned None
      | Raised e => Raised e
      end
  end.

Fixpoint received (ls : list line) : list str * option exn :=
  match ls with
  | [] => ([], None)
  | l :: rest =>
      match fragment_of l with
      | Raised e => ([], Some e)
      | Returned None => received rest
      | Returned (Some text) => (text :: fst (received rest), snd (received rest))
      end
  end.

(** The fragments broadcast during a generation. *)
Definition fragments (g : generation) : list str := fst (received (stream g)).

(** The exception that ends a generation, if one does. *)
Definition failure (g : generation) : option exn :=
  match snd (received (stream g)) with
  | Some e => Some e
  | None =>
      match fault g with
      | Some detail => Some (RequestError detail)
      | None => None
      end
  end.

(** The full text of a generation. *)
Definition full_text (g : generation) : str := concat (fragments g).

(** A line that the loop passes over: one on which [json.loads] raises
    [JSONDecodeError], or a JSON object without a ['response'] field. *)
Definition passed_over (l : line) : bool :=
  match l with
  | NotJson => true
  | Json (JObj fields) => bool_decide (obj_get response_key fields = None)
  | _ => false
  end.

Definition chunk_events (conversation_id : str) (spk : Z) (texts : list str) :
    list (target * event) :=
  List.map (fun text => (to_room conversation_id,
                         message_chunk spk text conversation_id)) texts.

(** The table after [append_turn]. *)
Definition with_turn (conversation_id : str) (t : turn)
    (table : gmap str conversation) : gmap str conversation :=
  match table !! conversation_id with
  | Some c =>
      <[conversation_id :=
          {| id := id c; config := config c; history := history c ++ [t];
             created_at := created_at c;
             exchange_count := exchange_count c |}]> table
  | None => table
  end.

(** The turn a completed generation appends. *)
Definition turn_of (spk : Z) (g : generation) : turn :=
  {| speaker := spk; content := full_text g; timestamp := now g |}.

(** The table after a generation: the turn is appended when the
    generation is not cut short. *)
Definition progress (conversation_id : str) (spk : Z) (g : generation)
    (table : gmap str conversation) : gmap str conversation :=
  match failure g with
  | Some _ => table
  | None => with_turn conversation_id (turn_of spk g) table
  end.

(** The record that [handle_start_dialogue] stores. *)
Definition fresh (uuid created : str) (data : gmap str str) : conversation :=
  {| id := uuid; config := data; history := []; created_at := created;
     exchange_count := 0 |}.

(** ** The handlers and their background tasks *)

(** [active_conversations[conversation_id]['exchange_count'] = f(old)] *)
Definition set_exchange_count (conversation_id : str) (f : Z -> Z) : M unit :=
  let* table := get_conversations in
  let* c := lift (getitem table conversation_id) in
  put_conversations
    (<[conversation_id :=
         {| id := id c; config := config c; history := history c;
            created_at := created_at c;
            exchange_count := f (exchange_count c) |}]> table).

(** [active_conversations[conversation_id]['history']] *)
Definition read_history (conversation_id : str) : M (list turn) :=
  let* table := get_conversations in
  let* c := lift (getitem table conversation_id) in
  ret (history c).

(** The task started by [handle_start_dialogue]. *)
Definition generate_opening (data : gmap str str) (conversation_id : str)
    (g1 g2 : generation) : M unit :=
  let* philosopher1 := lift (getitem data (lit "philosopher1")) in
  let* author1 := lift (getitem data (lit "author1")) in
  let* topic := lift (getitem data (lit "topic")) in
  let* prompt1 := lift (create_prompt philosopher1 author1 topic [] false) in
  let* model1 := lift (getitem data (lit "model1")) in
  let* _ := generate_stream model1 prompt1 conversation_id 1 g1 in
  let* history := read_history conversation_id in
  let* philosopher2 := lift (getitem data (lit "philosopher2")) in
  let* author2 := lift (getitem data (lit "author2")) in
  let* topic := lift (getitem data (lit "topic")) in
  let* prompt2 := lift (create_prompt philosopher2 author2 topic history true) in
  let* model2 := lift (getitem data (lit "model2")) in
  let* _ := generate_stream model2 prompt2 conversation_id 2 g2 in
  set_exchange_count conversation_id (fun _ => 1).

(** [handle_start_dialogue(data)]; [uuid] is the value of [uuid.uuid4()]
    and [created] the clock read for ['created_at']. *)
Definition handle_start_dialogue (sid : str) (data : gmap str str)
    (uuid created : str) (g1 g2 : generation) : M task :=
  try_except
    (let conversation_id := uuid in
     let* table := get_conversations in
     let* _ := put_conversations
                 (<[conversation_id :=
                      {| id := conversation_id; config := data;
                         history := []; created_at := created;
                         exchange_count := 0 |}]> table) in
     let* _ := emit (to_caller sid) (dialogue_started conversation_id data) in
     run_thread (generate_opening data conversation_id g1 g2))
    (fun e =>
       let* _ := emit (to_caller sid) (generation_error (StrOf e)) in
       ret NotStarted).

(** [1 if len(history) % 2 == 0 else 2] *)
Definition next_speaker (history : list turn) : Z :=
  if (Z.of_nat (length history) mod 2 =? 0)%Z then 1 else 2.

(** A read of the name [history] inside [generate_continuation].  The
    function assigns that name (after each generation), so it is a local
    of the function in its whole body, and the [history] of the enclosing
    handler is out of reach: until the assignment has run, a read raises
    [UnboundLocalError].  [None] is the unbound local; a bound one holds
    the list as it is at the assignment, and nothing is appended to that
    list between the assignment and the reads of the next round. *)
Definition load_history (history : option (list turn)) : outcome (list turn) :=
  match history with
  | Some h => Returned h
  | None => Raised (UnboundLocalError (lit "history"))
  end.

(** One round of the loop of [generate_continuation], from the local
    [history] before the round to the local after it. *)
Definition continuation_round (conversation_id : str)
    (config : gmap str str) (history : option (list turn)) (g : generation) :
    M (option (list turn)) :=
  let* h := lift (load_history history) in
  let spk := next_speaker h in
  let* philosopher_key :=
    lift (getitem config
            (if (spk =? 1)%Z then lit "philosopher1" else lit "philosopher2")) in
  let* author_key :=
    lift (getitem config
            (if (spk =? 1)%Z then lit "author1" else lit "author2")) in
  let* model :=
    lift (getitem config
            (if (spk =? 1)%Z then lit "model1" else lit "model2")) in
  let* topic := lift (getitem config (lit "topic")) in
  let* h := lift (load_history history) in
  let* prompt := lift (create_prompt philosopher_key author_key topic h true) in
  let* _ := generate_stream model prompt conversation_id spk g in
  let* assigned := read_history conversation_id in
  ret (Some assigned).

(** [for i in range(n): ...], one generation per round, the local
    [history] passing from a round to the next. *)
Fixpoint continuation_rounds (conversation_id : str)
    (config : gmap str str) (history : option (list turn))
    (gs : list generation) : M unit :=
  match gs with
  | [] => ret tt
  | g :: rest =>
      let* history' := continuation_round conversation_id config history g in
      continuation_rounds conversation_id config history' rest
  end.

(** The task started by [handle_continue_dialogue]; its local [history]
    starts unbound. *)
Definition generate_continuation (conversation_id : str)
    (config : gmap str str) (g1 g2 : generation) : M unit :=
  let* _ := continuation_rounds conversation_id config None [g1; g2] in
  set_exchange_count conversation_id (fun n => n + 1)%Z.

(** [handle_continue_dialogue(data)]; [conversation_id] is
    [data.get('conversation_id')].  Of the handler's own locals the task
    reads [config] and [conversation_id]; the handler's [history] is
    hidden from it by the task's local of that name. *)
Definition handle_continue_dialogue (sid : str)
    (conversation_id : option str) (g1 g2 : generation) : M task :=
  try_except
    (let* table := get_conversations in
     match conversation_id with
     | Some cid =>
         match table !! cid with
         | Some conversation =>
             run_thread
               (generate_continuation cid (config conversation) g1 g2)
         | None =>
             let* _ := emit (to_caller sid)
                         (generation_error (Text (lit "Conversation not found"))) in
             ret NotStarted
         end
     | None =>
         let* _ := emit (to_caller sid)
                     (generation_error (Text (lit "Conversation not found"))) in
         ret NotStarted
     end)
    (fun e =>
       let* _ := emit (to_caller sid) (generation_error (StrOf e)) in
       ret NotStarted).

(** ** Alternation of roles *)

(** The role the turn at position [i] of a history must have: 1 ("first")
    at even positions, 2 ("second") at odd ones. *)
Definition role_at (i : nat) : Z := if Nat.even i then 1 else 2.

Fixpoint alternates_from (i : nat) (h : list turn) : bool :=
  match h with
  | [] => true
  | t :: rest => (speaker t =? role_at i) && alternates_from (S i) rest
  end.

Definition alternates (h : list turn) : bool := alternates_from 0 h.


(** The events broadcast to rooms, as opposed to the answers sent to the
    caller of a handler. *)
Definition is_broadcast (te : target * event) : bool :=
  match fst te with
  | to_room _ => true
  | to_caller _ => false
  end.

Definition broadcasts (w : world) : list (target * event) :=
  List.filter is_broadcast (emitted w).


(** ** Sequences of control requests *)

Inductive call : Type :=
  | start_dialogue (sid : str) (data : gmap str str) (uuid created : str)
      (g1 g2 : generation)
  | continue_dialogue (sid : str) (conversation_id : option str)
      (g1 g2 : generation).

Definition handle (c : call) : M task :=
  match c with
  | start_dialogue sid data uuid created g1 g2 =>
      handle_start_dialogue sid data uuid created g1 g2
  | continue_dialogue sid conversation_id g1 g2 =>
      handle_continue_dialogue sid conversation_id g1 g2
  end.

Definition run_calls (calls : list call) (w : world) : world :=
  fold_left (fun w c => after (handle c) w) calls w.

End with_metadata.

(** ** Sample inputs *)

(** The config of the spec's scenario. *)
Definition scenario_config : gmap str str :=
  list_to_map
    [(lit "philosopher1", lit "socrates"); (lit "author1", lit "hemingway");
     (lit "model1", lit "llama3.2:3b");
     (lit "philosopher2", lit "kant"); (lit "author2", lit "woolf");
     (lit "model2", lit "mistral:7b");
     (lit "topic", lit "free will")].

(** A stream that delivers [text] in one fragment and ends. *)
Definition reply (text : str) : generation :=
  {| stream := [Json (JObj [(lit "response", JStr text); (lit "done", JBool false)]);
                Json (JObj [(lit "done", JBool true)])];
     fault := None;
     now := lit "2025-01-01T00:00:02" |}.

(** A stream that delivers one fragment and then breaks. *)
Definition broken_reply : generation :=
  {| stream := [Json (JObj [(lit "response", JStr (lit "Virtue is"))])];
     fault := Some (lit "Connection reset by peer");
     now := lit "2025-01-01T00:00:01" |}.

Definition two_turns : list turn :=
  [{| speaker := 1; content := lit "What is freedom?";
      timestamp := lit "2025-01-01T00:00:00" |};
   {| speaker := 2; content := lit "Freedom is autonomy.";
      timestamp := lit "2025-01-01T00:00:00" |}].

(** A state with one conversation of two turns. *)
Definition sample_world : world :=
  {| active_conversations :=
       {[ lit "c-1" :=
            {| id := lit "c-1"; config := scenario_config;
               history := two_turns;
               created_at := lit "2025-01-01T00:00:00";
               exchange_count := 1 |} ]};
     emitted := []; posted := [] |}.

(** A stream that delivers one fragment, then a line that is cut in the
    middle of its JSON, then the backend's report of an error, and ends. *)
Definition cut_reply : generation :=
  {| stream := [Json (JObj [(lit "response", JStr (lit "Virtue is"))]);
                NotJson;
                Json (JObj [(lit "error", JStr (lit "unexpected EOF"))])];
     fault := None;
     now := lit "2025-01-01T00:00:01" |}.

(** The stream of [reply], with a line of bytes that are not UTF-8 after
    the fragment. *)
Definition garbled_reply (text : str) : generation :=
  {| stream := [Json (JObj [(lit "response", JStr text); (lit "done", JBool false)]);
                Unreadable (UnicodeDecodeError (lit "invalid start byte"));
                Json (JObj [(lit "done", JBool true)])];
     fault := None;
     now := lit "2025-01-01T00:00:02" |}.

End App.

(** * dialogue-backend.py *)

Module Backend.

Local Open Scope Z_scope.

(** ** The catalogs ([PHILOSOPHER_PROFILES], [AUTHOR_STYLES]) *)

Definition philosopher_profile_rows : list (str * philosopher) :=
  [
   (lit "socrates",
    {| phil_name := None;
       phil_era := Some (lit "Ancient Greek");
       phil_key_concepts := Some ([lit "know thyself"; lit "examined life"; lit "virtue as knowledge"; lit "dialectical method"]);
       phil_beliefs := Some (lit "wisdom through acknowledging ignorance, moral virtue, divine inner voice");
       phil_style := Some (lit "questioning, ironic, humble yet penetrating") |});
   (lit "plato",
    {| phil_name := None;
       phil_era := Some (lit "Ancient Greek");
       phil_key_concepts := Some ([lit "theory of Forms"; lit "ideal state"; lit "philosopher kings"; lit "allegory of the cave"]);
       phil_beliefs := Some (lit "eternal Forms, tripartite soul, justice as harmony");
       phil_style := Some (lit "idealistic, systematic, metaphorical") |});
   (lit "aristotle",
    {| phil_name := None;
       phil_era := Some (lit "Ancient Greek");
       phil_key_concepts := Some ([lit "golden mean"; lit "eudaimonia"; lit "potentiality and actuality"; lit "four causes"]);
       phil_beliefs := Some (lit "virtue ethics, teleology, logic as tool for truth");
       phil_style := Some (lit "systematic, empirical, categorizing") |});
   (lit "marcus_aurelius",
    {| phil_name := None;
       phil_era := Some (lit "Roman");
       phil_key_concepts := Some ([lit "stoic virtue"; lit "cosmic perspective"; lit "present moment"; lit "duty"]);
       phil_beliefs := Some (lit "stoicism, universal reason, acceptance of fate");
       phil_style := Some (lit "personal, practical, contemplative") |});
   (lit "epicurus",
    {| phil_name := None;
       phil_era := Some (lit "Hellenistic Greek");
       phil_key_concepts := Some ([lit "ataraxia"; lit "absence of pain"; lit "friendship"; lit "atomic theory"]);
       phil_beliefs := Some (lit "pleasure as absence of suffering, mortality acceptance");
       phil_style := Some (lit "gentle, reassuring, practical") |});
   (lit "spinoza",
    {| phil_name := None;
       phil_era := Some (lit "17th century");
       phil_key_concepts := Some ([lit "substance monism"; lit "God or Nature"; lit "emotions as confused ideas"; lit "necessity"]);
       phil_beliefs := Some (lit "determinism, intellectual love of God, freedom through understanding");
       phil_style := Some (lit "geometric, rigorous, systematic") |});
   (lit "descartes",
    {| phil_name := None;
       phil_era := Some (lit "17th century");
       phil_key_concepts := Some ([lit "cogito ergo sum"; lit "methodical doubt"; lit "mind-body dualism"; lit "clear and distinct ideas"]);
       phil_beliefs := Some (lit "rationalism, mathematical certainty in philosophy");
       phil_style := Some (lit "methodical, skeptical progressing to certainty") |});
   (lit "hume",
    {| phil_name := None;
       phil_era := Some (lit "18th century Scottish");
       phil_key_concepts := Some ([lit "impressions and ideas"; lit "bundle theory"; lit "is-ought problem"; lit "miracles critique"]);
       phil_beliefs := Some (lit "empiricism, sentiment over reason in morality");
       phil_style := Some (lit "skeptical, witty, empirical") |});
   (lit "kant",
    {| phil_name := None;
       phil_era := Some (lit "18th century German");
       phil_key_concepts := Some ([lit "categorical imperative"; lit "synthetic a priori"; lit "phenomena/noumena"; lit "transcendental idealism"]);
       phil_beliefs := Some (lit "moral duty, limits of reason, human dignity");
       phil_style := Some (lit "systematic, precise, architectonic") |});
   (lit "kierkegaard",
    {| phil_name := None;
       phil_era := Some (lit "19th century Danish");
       phil_key_concepts := Some ([lit "leap of faith"; lit "anxiety"; lit "stages of life"; lit "subjective truth"]);
       phil_beliefs := Some (lit "Christian existentialism, individual over system");
       phil_style := Some (lit "passionate, paradoxical, literary") |});
   (lit "nietzsche",
    {| phil_name := None;
       phil_era := Some (lit "19th century German");
       phil_key_concepts := Some ([lit "will to power"; lit "eternal recurrence"; [252%N] ++ lit "bermensch"; lit "master/slave morality"]);
       phil_beliefs := Some (lit "life affirmation, critique of Christianity, perspectivism");
       phil_style := Some (lit "aphoristic, provocative, poetic") |});
   (lit "sartre",
    {| phil_name := None;
       phil_era := Some (lit "20th century French");
       phil_key_concepts := Some ([lit "existence precedes essence"; lit "bad faith"; lit "radical freedom"; lit "the Look"]);
       phil_beliefs := Some (lit "atheistic existentialism, condemned to freedom");
       phil_style := Some (lit "phenomenological, dramatic, engaged") |});
   (lit "wittgenstein",
    {| phil_name := None;
       phil_era := Some (lit "20th century Austrian-British");
       phil_key_concepts := Some ([lit "language games"; lit "forms of life"; lit "showing vs saying"; lit "private language"]);
       phil_beliefs := Some (lit "meaning as use, philosophy as therapy");
       phil_style := Some (lit "precise, enigmatic, therapeutic") |});
   (lit "hannah_arendt",
    {| phil_name := None;
       phil_era := Some (lit "20th century German-American");
       phil_key_concepts := Some ([lit "banality of evil"; lit "vita activa"; lit "public/private"; lit "plurality"]);
       phil_beliefs := Some (lit "importance of political action, thinking without banisters");
       phil_style := Some (lit "analytical, historical, politically engaged") |});
   (lit "simone_de_beauvoir",
    {| phil_name := None;
       phil_era := Some (lit "20th century French");
       phil_key_concepts := Some ([lit "situated freedom"; lit "ethics of ambiguity"; lit "woman as Other"; lit "bad faith"]);
       phil_beliefs := Some (lit "existentialist feminism, ethics of liberation");
       phil_style := Some (lit "phenomenological, feminist, engaged") |});
   (lit "buddha",
    {| phil_name := None;
       phil_era := Some (lit "Ancient Indian");
       phil_key_concepts := Some ([lit "four noble truths"; lit "eightfold path"; lit "non-self"; lit "dependent origination"]);
       phil_beliefs := Some (lit "middle way, liberation from suffering");
       phil_style := Some (lit "compassionate, practical, metaphorical") |});
   (lit "confucius",
    {| phil_name := None;
       phil_era := Some (lit "Ancient Chinese");
       phil_key_concepts := Some ([lit "ren"; lit "li"; lit "junzi"; lit "rectification of names"]);
       phil_beliefs := Some (lit "social harmony, filial piety, moral cultivation");
       phil_style := Some (lit "practical, social, virtue-focused") |});
   (lit "lao_tzu",
    {| phil_name := None;
       phil_era := Some (lit "Ancient Chinese");
       phil_key_concepts := Some ([lit "dao"; lit "wu wei"; lit "yin yang"; lit "simplicity"]);
       phil_beliefs := Some (lit "natural way, non-action, return to simplicity");
       phil_style := Some (lit "paradoxical, poetic, mystical") |});
   (lit "rumi",
    {| phil_name := None;
       phil_era := Some (lit "13th century Persian");
       phil_key_concepts := Some ([lit "divine love"; lit "whirling"; lit "unity"; lit "spiritual intoxication"]);
       phil_beliefs := Some (lit "Sufi mysticism, love as path to divine");
       phil_style := Some (lit "ecstatic, poetic, mystical") |});
   (lit "martha_nussbaum",
    {| phil_name := None;
       phil_era := Some (lit "Contemporary American");
       phil_key_concepts := Some ([lit "capabilities approach"; lit "fragility of goodness"; lit "political emotions"; lit "cosmopolitanism"]);
       phil_beliefs := Some (lit "human dignity, emotions in ethics, global justice");
       phil_style := Some (lit "analytical, humanistic, interdisciplinary") |})
  ].

Definition author_style_rows : list (str * author) :=
  [
   (lit "hemingway",
    {| auth_name := None;
       auth_characteristics := Some (lit "short sentences, simple words, concrete imagery, iceberg theory");
       auth_voice := Some (lit "direct, understated, masculine, journalistic") |});
   (lit "woolf",
    {| auth_name := None;
       auth_characteristics := Some (lit "stream of consciousness, long flowing sentences, interior monologue, time fluidity");
       auth_voice := Some (lit "lyrical, introspective, modernist, feminist") |});
   (lit "tolkien",
    {| auth_name := None;
       auth_characteristics := Some (lit "elevated language, world-building detail, mythic scope, linguistic richness");
       auth_voice := Some (lit "epic, archaic touches, moral clarity, eucatastrophe") |});
   (lit "austen",
    {| auth_name := None;
       auth_characteristics := Some (lit "free indirect discourse, social observation, wit, irony");
       auth_voice := Some (lit "satirical, mannered, precise, socially astute") |});
   (lit "dickens",
    {| auth_name := None;
       auth_characteristics := Some (lit "elaborate descriptions, sentiment, social criticism, memorable characters");
       auth_voice := Some (lit "Victorian, expansive, moralistic, humorous") |});
   (lit "kafka",
    {| auth_name := None;
       auth_characteristics := Some (lit "surreal situations, bureaucratic nightmares, alienation, ambiguity");
       auth_voice := Some (lit "anxious, precise, dreamlike, oppressive") |});
   (lit "garcia_marquez",
    {| auth_name := None;
       auth_characteristics := Some (lit "magical realism, cyclical time, lush descriptions, myth blending");
       auth_voice := Some (lit "sensual, fantastical, political, Latin American") |});
   (lit "vonnegut",
    {| auth_name := None;
       auth_characteristics := Some (lit "simple syntax, dark humor, science fiction elements, fatalism");
       auth_voice := Some (lit "sardonic, humane, anti-war, accessible") |});
   (lit "wilde",
    {| auth_name := None;
       auth_characteristics := Some (lit "epigrams, paradoxes, aestheticism, wit");
       auth_voice := Some (lit "witty, decadent, paradoxical, sophisticated") |});
   (lit "joyce",
    {| auth_name := None;
       auth_characteristics := Some (lit "stream of consciousness, experimental, mythic parallels, language play");
       auth_voice := Some (lit "modernist, Irish, complex, revolutionary") |});
   (lit "morrison",
    {| auth_name := None;
       auth_characteristics := Some (lit "lyrical prose, nonlinear narrative, African American experience, memory");
       auth_voice := Some (lit "poetic, haunting, politically engaged, spiritual") |});
   (lit "baldwin",
    {| auth_name := None;
       auth_characteristics := Some (lit "passionate rhetoric, long sentences, biblical cadence, moral urgency");
       auth_voice := Some (lit "prophetic, eloquent, confrontational, compassionate") |});
   (lit "borges",
    {| auth_name := None;
       auth_characteristics := Some (lit "labyrinths, mirrors, infinite recursion, scholarly tone");
       auth_voice := Some (lit "erudite, metaphysical, playful, mysterious") |});
   (lit "calvino",
    {| auth_name := None;
       auth_characteristics := Some (lit "lightness, multiplicity, metafiction, combinatorial");
       auth_voice := Some (lit "playful, philosophical, fantastical, precise") |});
   (lit "leguin",
    {| auth_name := None;
       auth_characteristics := Some (lit "anthropological depth, gender exploration, ecological themes, clarity");
       auth_voice := Some (lit "wise, speculative, feminist, Taoist-influenced") |});
   (lit "ishiguro",
    {| auth_name := None;
       auth_characteristics := Some (lit "unreliable narrators, emotional restraint, memory, subtle reveals");
       auth_voice := Some (lit "understated, melancholic, precise, haunting") |});
   (lit "murakami",
    {| auth_name := None;
       auth_characteristics := Some (lit "surreal elements, parallel worlds, jazz references, alienation");
       auth_voice := Some (lit "dreamlike, contemporary, Japanese-Western fusion") |});
   (lit "pynchon",
    {| auth_name := None;
       auth_characteristics := Some (lit "paranoia, encyclopedic, conspiracy, entropy");
       auth_voice := Some (lit "complex, paranoid, satirical, postmodern") |});
   (lit "atwood",
    {| auth_name := None;
       auth_characteristics := Some (lit "dystopian elements, feminist themes, environmental concerns, sharp prose");
       auth_voice := Some (lit "incisive, speculative, Canadian, politically aware") |});
   (lit "butler",
    {| auth_name := None;
       auth_characteristics := Some (lit "Afrofuturism, power dynamics, biological themes, survival");
       auth_voice := Some (lit "visionary, grounded, African American, transformative") |})
  ].

Definition PHILOSOPHER_PROFILES : gmap str philosopher :=
  list_to_map philosopher_profile_rows.

Definition AUTHOR_STYLES : gmap str author :=
  list_to_map author_style_rows.

(** One entry of the request's ['history'] list, as the loop of
    [generate_dialogue] builds it (its constant ['type': 'message'] field
    is left out). *)
Record message : Type := {
  msg_philosopher : str;
  msg_author : str;
  pairing : Z;
  msg_content : str;
  msg_timestamp : str
}.

(** [s.replace('_', ' ')] *)
Definition underscores_to_spaces (s : str) : str :=
  List.map (fun c => if (c =? 95)%N then 32%N else c) s.

(** [l[-n:]] *)
Definition last_n {A} (n : nat) (l : list A) : list A :=
  drop (length l - n)%nat l.

Section with_title.

(** [str.title] of the Python library. *)
Context (title : str -> str).

Definition display (key : str) : str := title (underscores_to_spaces key).

(** ** Prompt composition ([DialogueGenerator.create_philosopher_prompt]) *)

Definition system_part (philosopher_key author_key topic : str) : str :=
  let phil_profile := default no_philosopher (PHILOSOPHER_PROFILES !! philosopher_key) in
  let author_style := default no_author (AUTHOR_STYLES !! author_key) in
  lit "You are " ++ display philosopher_key ++ lit ", the " ++
  default [] (phil_era phil_profile) ++ lit " philosopher, " ++ nl ++
  lit "but you must express your philosophical ideas through the literary voice and style of " ++
  display author_key ++ lit "." ++ nl ++
  nl ++
  lit "Your philosophical position includes:" ++ nl ++
  lit "- Key concepts: " ++
  join (lit ", ") (default [] (phil_key_concepts phil_profile)) ++ nl ++
  lit "- Core beliefs: " ++ default [] (phil_beliefs phil_profile) ++ nl ++
  lit "- Philosophical style: " ++ default [] (phil_style phil_profile) ++ nl ++
  nl ++
  lit "You must express these ideas using:" ++ nl ++
  lit "- Writing characteristics: " ++
  default [] (auth_characteristics author_style) ++ nl ++
  lit "- Literary voice: " ++ default [] (auth_voice author_style) ++ nl ++
  nl ++
  lit "The discussion topic is: " ++ dq ++ topic ++ dq ++ nl.

Definition history_part (entry : message) : str :=
  let speaker_name :=
    default [] (phil_era (default no_philosopher
                            (PHILOSOPHER_PROFILES !! msg_philosopher entry))) in
  nl ++ title (msg_philosopher entry) ++ lit " (" ++ speaker_name ++ lit "): " ++
  slice_to 500%nat (msg_content entry) ++ lit "...".

Definition response_part (philosopher_key author_key topic other : str) : str :=
  nl ++
  lit "Now respond to " ++ display other ++ lit "'s points while:" ++ nl ++
  lit "1. Maintaining your philosophical position as " ++ display philosopher_key ++ nl ++
  lit "2. Using " ++ display author_key ++
  lit "'s literary style to make your ideas accessible" ++ nl ++
  lit "3. Engaging directly with their argument about " ++ topic ++ nl ++
  lit "4. Making your classical philosophy relevant to modern readers" ++ nl ++
  nl ++
  lit "Write 2-3 paragraphs that blend philosophical depth with literary artistry.".

Definition opening_part (philosopher_key author_key topic : str) : str :=
  nl ++
  lit "Begin the dialogue about " ++ dq ++ topic ++ dq ++ lit " by:" ++ nl ++
  lit "1. Presenting your philosophical perspective as " ++ display philosopher_key ++ nl ++
  lit "2. Using " ++ display author_key ++
  lit "'s literary style to engage modern readers" ++ nl ++
  lit "3. Raising questions or observations that invite philosophical exploration" ++ nl ++
  lit "4. Making ancient wisdom feel immediate and relevant" ++ nl ++
  nl ++
  lit "Write 2-3 paragraphs that blend philosophical insight with literary craft.".

(** Python truth value of an optional string: [None] and [''] are false. *)
Definition given (s : option str) : option str :=
  match s with
  | Some (c :: r) => Some (c :: r)
  | _ => None
  end.

Definition create_philosopher_prompt (philosopher_key author_key topic : str)
    (history : list message) (is_response : bool)
    (other_philosopher : option str) : str :=
  let prompt_parts := [system_part philosopher_key author_key topic] in
  let prompt_parts :=
    if truthy history then
      prompt_parts ++ [nl ++ lit "Previous exchange:"] ++
      List.map history_part (last_n 4 history)
    else prompt_parts in
  let prompt_parts :=
    match (if is_response then given other_philosopher else None) with
    | Some other =>
        prompt_parts ++ [response_part philosopher_key author_key topic other]
    | None =>
        prompt_parts ++ [opening_part philosopher_key author_key topic]
    end in
  join nl prompt_parts.

(** ** The generation loop ([generate_dialogue]) *)

(** One item of the event stream the endpoint yields. *)
Inductive sse : Type :=
  | message_event (m : message)
  | error_event (e : exn).

(** The state of one request: the list object bound to [history], which
    the loop appends to, the items yielded so far, and the prompts sent to
    the model (model, prompt). *)
Record session : Type := {
  history : list message;
  yielded : list sse;
  requested : list (str * str)
}.

(** What one call of [generate_response] receives from outside: the HTML
    made of the model's answer, or the exception of [client.generate],
    and the clock read for the message's timestamp. *)
Record answer : Type := {
  html : outcome str;
  stamp : str
}.

Definition get_history : state_exn session (list message) :=
  fun s => (Returned (history s), s).

Definition yield (item : sse) : state_exn session unit :=
  fun s =>
    (Returned tt,
     {| history := history s; yielded := yielded s ++ [item];
        requested := requested s |}).

Definition append (m : message) : state_exn session unit :=
  fun s =>
    (Returned tt,
     {| history := history s ++ [m]; yielded := yielded s;
        requested := requested s |}).

Definition request_model (model prompt : str) : state_exn session unit :=
  fun s =>
    (Returned tt,
     {| history := history s; yielded := yielded s;
        requested := requested s ++ [(model, prompt)] |}).

Definition generate_response (philosopher_key author_key model topic : str)
    (history : list message) (is_response : bool)
    (other_philosopher : option str) (a : answer) : state_exn session str :=
  let prompt :=
    create_philosopher_prompt philosopher_key author_key topic history
      is_response other_philosopher in
  let* _ := request_model model prompt in
  lift (html a).

(** [(len(history) + i) % 2 == 0]: whether round [i], on a history of [n]
    messages, goes to pairing 1. *)
Definition first (n i : nat) : bool := (Z.of_nat n + Z.of_nat i) mod 2 =? 0.

(** The body of [for i in range(num_exchanges):]. *)
Definition exchange (data : gmap str str) (i : nat) (a : answer) :
    state_exn session unit :=
  let* history := get_history in
  let len := Z.of_nat (length history) in
  let to_first := first (length history) i in
  let* philosopher_key :=
    lift (getitem data (if to_first then lit "philosopher1" else lit "philosopher2")) in
  let* author_key :=
    lift (getitem data (if to_first then lit "author1" else lit "author2")) in
  let* model :=
    lift (getitem data (if to_first then lit "model1" else lit "model2")) in
  let pairing := if to_first then 1 else 2 in
  let* other_philosopher :=
    if to_first then
      if 0 <? len then
        let* p := lift (getitem data (lit "philosopher2")) in ret (Some p)
      else ret None
    else
      let* p := lift (getitem data (lit "philosopher1")) in ret (Some p) in
  let* topic := lift (getitem data (lit "topic")) in
  let* content :=
    generate_response philosopher_key author_key model topic history
      (0 <? len) other_philosopher a in
  let message :=
    {| msg_philosopher := philosopher_key; msg_author := author_key;
       pairing := pairing; msg_content := content;
       msg_timestamp := stamp a |} in
  let* _ := yield (message_event message) in
  append message.

Fixpoint exchanges (data : gmap str str) (i : nat) (answers : list answer) :
    state_exn session unit :=
  match answers with
  | [] => ret tt
  | a :: rest =>
      let* _ := exchange data i a in
      exchanges data (S i) rest
  end.

(** [generate_dialogue]: [data] is the request's JSON object and
    [sent_history] its ['history'] field when it has one;
    [num_exchanges = 2]. *)
Definition generate_dialogue (data : gmap str str)
    (sent_history : option (list message)) (a1 a2 : answer) : session :=
  after
    (try_except
       (exchanges data 0 [a1; a2])
       (fun e => yield (error_event e)))
    {| history := default [] sent_history; yielded := []; requested := [] |}.

End with_title.

(** ** Sample inputs *)

(** The ['history'] of a request that continues a dialogue of two
    messages, one of each pairing. *)
Definition sent_history : list message :=
  [{| msg_philosopher := lit "socrates"; msg_author := lit "hemingway";
      pairing := 1; msg_content := lit "<p>What is freedom?</p>";
      msg_timestamp := lit "2025-01-01T00:00:00" |};
   {| msg_philosopher := lit "kant"; msg_author := lit "woolf";
      pairing := 2; msg_content := lit "<p>Freedom is autonomy.</p>";
      msg_timestamp := lit "2025-01-01T00:00:01" |}].

End Backend.

(** * Notions used to state further properties *)

Module Notions.

Import App.

(** Whether an event closes a generation. *)
Definition closes (ev : event) : bool :=
  match ev with
  | generation_complete _ _ | generation_error _ => true
  | _ => false
  end.

(** Whether a call is a [start_dialogue] that draws the identifier [cid]. *)
Definition creates (cid : str) (c : call) : bool :=
  match c with
  | start_dialogue _ _ uuid _ _ _ => bool_decide (uuid = cid)
  | continue_dialogue _ _ _ _ => false
  end.

(** The identifier a call writes to, if any. *)
Definition addresses (c : call) : option str :=
  match c with
  | start_dialogue _ _ uuid _ _ _ => Some uuid
  | continue_dialogue _ conversation_id _ _ => conversation_id
  end.

(** A state in which nothing has been generated yet: every history is
    empty, every exchange counter is 0, no request has been posted and
    nothing has been broadcast. *)
Definition pristine (w : world) : Prop :=
  (forall cid c, active_conversations w !! cid = Some c ->
                 history c = [] /\ exchange_count c = 0%Z) /\
  posted w = [] /\
  broadcasts w = [].

(** ** Sample inputs *)

(** Two calls on [sample_world]: a start that draws a new identifier, and
    a continuation of the conversation it holds. *)
Definition sample_calls : list call :=
  [start_dialogue (lit "sid-1") scenario_config (lit "c-2")
     (lit "2025-01-01T00:01:00") (reply (lit "x")) (reply (lit "y"));
   continue_dialogue (lit "sid-1") (Some (lit "c-1"))
     (reply (lit "a")) broken_reply].

End Notions.

(** * app.py: start-up, sessions, rooms and the health check *)

Module Server.

Import App.

(** ** [DialogueGenerator.__init__] *)

(** [host.startswith(("http://", "https://"))] *)
Definition has_scheme (host : str) : bool :=
  starts_with (lit "http://") host || starts_with (lit "https://") host.

(** [self.ollama_url], from the value of [os.getenv("OLLAMA_HOST")]; an
    unset variable and an empty one are both false for [if host:]. *)
Definition ollama_url (OLLAMA_HOST : option str) : str :=
  match OLLAMA_HOST with
  | Some host =>
      if truthy host then
        if has_scheme host then host else lit "http://" ++ host
      else lit "http://localhost:11434"
  | None => lit "http://localhost:11434"
  end.

(** ** [load_metadata] *)

(** What [open] and [json.load] make of a file of the [data] directory. *)
Inductive file (A : Type) : Type :=
  | missing
  | unparsable
  | holds (a : A).
Arguments missing {A}.
Arguments unparsable {A}.
Arguments holds {A} a.

(** How start-up ends: the two catalogs, or the [JSONDecodeError] that
    nothing catches. *)
Inductive startup : Type :=
  | loaded (philosophers : gmap str philosopher) (authors : gmap str author)
  | decode_error.

(** The philosophers' file is opened and parsed first; [FileNotFoundError]
    from either [open] leads to the embedded catalogs, for both. *)
Definition load_metadata (philosophers_json : file (gmap str philosopher))
    (authors_json : file (gmap str author)) : startup :=
  match philosophers_json with
  | missing => loaded get_default_philosophers get_default_authors
  | unparsable => decode_error
  | holds philosophers =>
      match authors_json with
      | missing => loaded get_default_philosophers get_default_authors
      | unparsable => decode_error
      | holds authors => loaded philosophers authors
      end
  end.

(** ** Sessions and rooms *)

(** The events these handlers emit, each to the calling client. *)
Inductive answer : Type :=
  | connected (client_id : str)
  | conversation_state (conversation : conversation) (client_type : option str)
  | conversation_history (history : list turn) (config : gmap str str).

(** [client_sessions] (each session's ['connected_at']), the (room,
    client) pairs entered with [join_room], and the log of the answers
    sent, each with the client it went to.  [rooms] records the calls of
    [join_room] only: what the SocketIO library does to a client's rooms
    when it disconnects is not part of [app.py]. *)
Record sessions : Type := {
  client_sessions : gmap str str;
  rooms : gset (str * str);
  answers : list (str * answer)
}.

Definition no_sessions : sessions :=
  {| client_sessions := ∅; rooms := ∅; answers := [] |}.

(** [handle_connect()]; [sid] is [request.sid]. *)
Definition handle_connect (sid connected_at : str) (s : sessions) : sessions :=
  {| client_sessions := <[sid := connected_at]> (client_sessions s);
     rooms := rooms s;
     answers := answers s ++ [(sid, connected sid)] |}.

(** [handle_disconnect()] *)
Definition handle_disconnect (sid : str) (s : sessions) : sessions :=
  match client_sessions s !! sid with
  | Some _ =>
      {| client_sessions := delete sid (client_sessions s);
         rooms := rooms s; answers := answers s |}
  | None => s
  end.

(** [handle_join(data)]; [conversation_id] and [client_type] are
    [data.get('conversation_id')] and [data.get('client_type')], and
    [table] is [active_conversations], which the handler only reads. *)
Definition handle_join (table : gmap str conversation) (sid : str)
    (conversation_id client_type : option str) (s : sessions) : sessions :=
  match conversation_id with
  | Some cid =>
      if truthy cid then
        match table !! cid with
        | Some conversation =>
            {| client_sessions := client_sessions s;
               rooms := {[ (cid, sid) ]} ∪ rooms s;
               answers := answers s ++
                          [(sid, conversation_state conversation client_type)] |}
        | None => s
        end
      else s
  | None => s
  end.

(** [handle_get_history(data)] *)
Definition handle_get_history (table : gmap str conversation) (sid : str)
    (conversation_id : option str) (s : sessions) : sessions :=
  match conversation_id ≫= (table !!.) with
  | Some conversation =>
      {| client_sessions := client_sessions s;
         rooms := rooms s;
         answers := answers s ++
                    [(sid, conversation_history (history conversation)
                             (config conversation))] |}
  | None => s
  end.

(** ** [health_check] *)

(** The answer of the route: the 200 answer with the models' names, or the
    answer sent with status 500. *)
Inductive health : Type :=
  | healthy (conversations clients : nat) (models : list str)
  | unhealthy (conversations clients : nat).

(** [[m['name'] for m in models]]; an entry is given by its ['name'] field
    when it has one. *)
Fixpoint names (models : list (option str)) : outcome (list str) :=
  match models with
  | [] => Returned []
  | Some name :: rest =>
      match names rest with
      | Returned ns => Returned (name :: ns)
      | Raised e => Raised e
      end
  | None :: _ => Raised (KeyError (lit "name"))
  end.

(** [tags] is what [requests.get(.../api/tags).json()] gives: an exception
    of either call, or the ['models'] field of the object when it has one.
    The bare [except:] turns every exception into the 500 answer. *)
Definition health_check (table : gmap str conversation) (s : sessions)
    (tags : outcome (option (list (option str)))) : health :=
  match tags with
  | Returned models =>
      match names (default [] models) with
      | Returned ns => healthy (size table) (size (client_sessions s)) ns
      | Raised _ => unhealthy (size table) (size (client_sessions s))
      end
  | Raised _ => unhealthy (size table) (size (client_sessions s))
  end.

End Server.

(** * dialogue-backend.py: from the model's answer to HTML *)

Module Html.

Import Backend.

(** The characters that [str.strip()] removes. *)
Definition is_space (c : char) : bool :=
  ((9 <=? c) && (c <=? 13) || (28 <=? c) && (c <=? 32) ||
   (c =? 133) || (c =? 160) || (c =? 5760) ||
   (8192 <=? c) && (c <=? 8202) ||
   (c =? 8232) || (c =? 8233) || (c =? 8239) || (c =? 8287) ||
   (c =? 12288))%N.

Fixpoint lstrip (s : str) : str :=
  match s with
  | [] => []
  | c :: rest => if is_space c then lstrip rest else s
  end.

Fixpoint rstrip (s : str) : str :=
  match s with
  | [] => []
  | c :: rest =>
      match rstrip rest with
      | [] => if is_space c then [] else [c]
      | kept => c :: kept
      end
  end.

(** [s.strip()] *)
Definition strip (s : str) : str := rstrip (lstrip s).

(** [s.split(sep)] for a non-empty [sep]: the text is cut at each
    occurrence of [sep], found from left to right, the search resuming
    after the occurrence.  [skip] counts the characters of an occurrence
    still to pass, [piece] holds the current piece, last character first. *)
Fixpoint split_from (sep : str) (skip : nat) (piece : str) (s : str) :
    list str :=
  match s with
  | [] => [reverse piece]
  | c :: rest =>
      match skip with
      | S k => split_from sep k piece rest
      | O =>
          if starts_with sep s
          then reverse piece :: split_from sep (length sep - 1) [] rest
          else split_from sep 0 (c :: piece) rest
      end
  end.

Definition split (sep s : str) : list str := split_from sep 0 [] s.

Definition blank_line : str := nl ++ nl.

(** [f'<p>{p.strip()}</p>'] *)
Definition paragraph (p : str) : str := lit "<p>" ++ strip p ++ lit "</p>".

(** The HTML that [generate_response] makes of [response['response']]: the
    stripped text is cut at blank lines, and each piece that is not empty
    once stripped becomes a paragraph. *)
Definition to_html (text : str) : str :=
  let content := strip text in
  let paragraphs := split blank_line content in
  concat (List.map paragraph
            (List.filter (fun p => truthy (strip p)) paragraphs)).

(** What [generate_response] hands to the loop, from what
    [client.generate] does: its exception is logged and raised again. *)
Definition answer_of (generated : outcome str) (clock : str) : answer :=
  {| html := match generated with
             | Returned text => Returned (to_html text)
             | Raised e => Raised e
             end;
     stamp := clock |}.

(** What the prompt quotes of a history entry: who spoke, and the first
    500 characters of what was said. *)
Definition quoted (entry : message) : str * str :=
  (msg_philosopher entry, take 500 (msg_content entry)).

(** ** Sample inputs *)

(** A [title] that leaves the key as it is. *)
Definition as_is (s : str) : str := s.

Definition five_messages : list message :=
  List.map (fun n : Z =>
              {| msg_philosopher := if (n mod 2 =? 0)%Z then lit "socrates" else lit "kant";
                 msg_author := lit "woolf"; pairing := 1 + n mod 2;
                 msg_content := lit "<p>...</p>"; msg_timestamp := [] |})
    [0; 1; 2; 3; 4]%Z.

End Html.

(** * Properties of app.py *)

Module AppTheory.

Import App.
Local Open Scope Z_scope.

(** ** The generation loop *)

Lemma on_line_fragment (cid : str) (spk : Z) (full : str) (l : line) (w : world) :
  on_line cid spk full l w =
  match fragment_of l with
  | Returned None => (Returned full, w)
  | Returned (Some text) =>
      (Returned (full ++ text),
       {| active_conversations := active_conversations w;
          emitted := emitted w ++ chunk_events cid spk [text];
          posted := posted w |})
  | Raised e => (Raised e, w)
  end.
Proof.
  destruct l as [| |e|chunk]; try reflexivity.
  unfold on_line, fragment_of, bind, lift.
  destruct (contains_response chunk) as [[|]|e]; try reflexivity.
  destruct (getitem_response chunk) as [[]|e]; reflexivity.
Qed.

Lemma iter_lines_received (cid : str) (spk : Z) (ls : list line) :
  forall (full : str) (w : world),
    iter_lines cid spk ls full w =
    (match snd (received ls) with
     | None => Returned (full ++ concat (fst (received ls)))
     | Some e => Raised e
     end,
     {| active_conversations := active_conversations w;
        emitted := emitted w ++ chunk_events cid spk (fst (received ls));
        posted := posted w |}).
Proof.
  induction ls as [|l rest IH]; intros full w.
  - destruct w. cbn. by rewrite !app_nil_r.
  - cbn [iter_lines received]. unfold bind at 1. rewrite on_line_fragment.
    destruct (fragment_of l) as [[text|]|e].
    + rewrite IH. cbn. rewrite <- !app_assoc. reflexivity.
    + apply IH.
    + destruct w. cbn. by rewrite app_nil_r.
Qed.

Lemma append_turn_table (cid : str) (t : turn) (w : world) :
  append_turn cid t w =
  (Returned tt,
   {| active_conversations := with_turn cid t (active_conversations w);
      emitted := emitted w; posted := posted w |}).
Proof.
  unfold append_turn, with_turn, bind, get_conversations, put_conversations, ret.
  destruct (active_conversations w !! cid); [reflexivity|]. by destruct w.
Qed.

(** A generation that is not cut short appends its turn and announces it. *)
Lemma generate_stream_completes (model prompt cid : str) (spk : Z)
    (g : generation) (w : world) :
  failure g = None ->
  generate_stream model prompt cid spk g w =
  (Returned (Some (full_text g)),
   {| active_conversations := with_turn cid (turn_of spk g) (active_conversations w);
      emitted := emitted w ++
                 [(to_room cid, generation_start spk cid)] ++
                 chunk_events cid spk (fragments g) ++
                 [(to_room cid, generation_complete spk (full_text g))];
      posted := posted w ++ [(model, prompt)] |}).
Proof.
  unfold failure, fragments, full_text, generate_stream, try_except.
  intros Hok. unfold bind at 1. cbn [emit]. unfold bind at 1. cbn [post].
  unfold bind at 1. rewrite iter_lines_received.
  destruct (snd (received (stream g))) as [e|]; [discriminate|].
  destruct (fault g); [discriminate|].
  unfold bind at 1. cbn [ret]. unfold bind at 1. rewrite append_turn_table.
  cbn. rewrite <- !app_assoc. reflexivity.
Qed.

(** A generation that is cut short leaves the table alone and announces
    the error. *)
Lemma generate_stream_fails (model prompt cid : str) (spk : Z)
    (g : generation) (w : world) (e : exn) :
  failure g = Some e ->
  generate_stream model prompt cid spk g w =
  (Returned None,
   {| active_conversations := active_conversations w;
      emitted := emitted w ++
                 [(to_room cid, generation_start spk cid)] ++
                 chunk_events cid spk (fragments g) ++
                 [(to_room cid, generation_error (StrOf e))];
      posted := posted w ++ [(model, prompt)] |}).
Proof.
  unfold failure, fragments, generate_stream, try_except.
  intros Hfail. unfold bind at 1. cbn [emit]. unfold bind at 1. cbn [post].
  unfold bind at 1. rewrite iter_lines_received.
  destruct (snd (received (stream g))) as [e'|].
  - injection Hfail as <-. cbn. rewrite <- !app_assoc. reflexivity.
  - destruct (fault g) as [detail|]; [|discriminate].
    injection Hfail as <-. cbn. rewrite <- !app_assoc. reflexivity.
Qed.

(** C4, as the code has it.  A generation that an exception ends (raised
    by the request, by the transport, or by the handling of a line
    received) appends no turn, not even one made of the fragments already
    received: the conversation table is exactly what it was (so every
    history, config and registration is untouched and the history length
    is unchanged), [generate_stream] returns [None], and the events
    emitted are the start notice, the fragments received, and last a
    [generation_error] to the room of that conversation. *)
Theorem failed_generation_appends_nothing (model prompt cid : str) (spk : Z)
    (g : generation) (w : world) (e : exn) :
  failure g = Some e ->
  result (generate_stream model prompt cid spk g) w = Returned None /\
  active_conversations (after (generate_stream model prompt cid spk g) w)
    = active_conversations w /\
  emitted (after (generate_stream model prompt cid spk g) w)
    = emitted w ++
      [(to_room cid, generation_start spk cid)] ++
      chunk_events cid spk (fragments g) ++
      [(to_room cid, generation_error (StrOf e))].
Proof.
  intros Hfail. unfold result, after.
  rewrite (generate_stream_fails _ _ _ _ _ _ _ Hfail). auto.
Qed.

Lemma fragment_of_passed_over (l : line) :
  passed_over l = true -> fragment_of l = Returned None.
Proof.
  destruct l as [| | |[]]; try discriminate; try reflexivity.
  cbn. intros H%bool_decide_eq_true. rewrite H.
  rewrite bool_decide_eq_false_2; [reflexivity|]. by intros [? ?].
Qed.

Lemma received_passed_over (before rest : list line) (l : line) :
  passed_over l = true ->
  received (before ++ l :: rest) = received (before ++ rest).
Proof.
  intros H. induction before as [|b before IH]; cbn [app received].
  - by rewrite (fragment_of_passed_over _ H).
  - destruct (fragment_of b) as [[text|]|e]; by rewrite ?IH.
Qed.

(** The effect of a generation is determined by what it receives. *)
Lemma generate_stream_ext (model prompt cid : str) (spk : Z)
    (g g' : generation) (w : world) :
  received (stream g) = received (stream g') ->
  fault g = fault g' -> now g = now g' ->
  generate_stream model prompt cid spk g w
    = generate_stream model prompt cid spk g' w.
Proof.
  intros Hr Hf Hn.
  assert (failure g = failure g') as Hfail by (unfold failure; by rewrite Hr, Hf).
  assert (fragments g = fragments g') as Hfr by (unfold fragments; by rewrite Hr).
  destruct (failure g) as [e|] eqn:Hg.
  - rewrite (generate_stream_fails _ _ _ _ g _ e Hg).
    rewrite (generate_stream_fails _ _ _ _ g' _ e); by rewrite <- ?Hfail, ?Hfr.
  - rewrite (generate_stream_completes _ _ _ _ g _ Hg).
    rewrite (generate_stream_completes _ _ _ _ g'); [|by rewrite <- Hfail].
    unfold turn_of, full_text. by rewrite Hfr, Hn.
Qed.

(** C10, as the code has it.  A line of the backend's stream on which
    [json.loads] raises [JSONDecodeError], or that is a JSON object
    without a ['response'] field, is passed over in silence:
    the generation returns the same value and leaves the same state (the
    same turn appended, the same events, no fragment and no error for
    that line) as on the stream without that line. *)
Theorem passed_over_line_leaves_no_trace (model prompt cid : str) (spk : Z)
    (before rest : list line) (l : line) (transport : option str)
    (clock : str) (w : world) :
  passed_over l = true ->
  generate_stream model prompt cid spk
    {| stream := before ++ l :: rest; fault := transport; now := clock |} w
  = generate_stream model prompt cid spk
      {| stream := before ++ rest; fault := transport; now := clock |} w.
Proof.
  intros H. apply generate_stream_ext; cbn; [|reflexivity..].
  by apply received_passed_over.
Qed.

(** ** Prompt composition *)

Section prompts.
Context (PHILOSOPHERS : gmap str philosopher) (AUTHORS : gmap str author).

Lemma create_prompt_opening_raises (philosopher_key author_key topic : str)
    (history : list turn) :
  create_prompt PHILOSOPHERS AUTHORS philosopher_key author_key topic history false
  = Raised (UnboundLocalError (lit "front_matter")).
Proof. reflexivity. Qed.

Lemma create_prompt_empty_history_raises (philosopher_key author_key topic : str)
    (is_response : bool) :
  create_prompt PHILOSOPHERS AUTHORS philosopher_key author_key topic [] is_response
  = Raised (UnboundLocalError (lit "front_matter")).
Proof. by destruct is_response. Qed.

Lemma create_prompt_response (philosopher_key author_key topic : str)
    (history : list turn) (m : turn) :
  last history = Some m ->
  create_prompt PHILOSOPHERS AUTHORS philosopher_key author_key topic history true
  = Returned
      (response_template
         (default philosopher_key
            (phil_name (default no_philosopher (PHILOSOPHERS !! philosopher_key))))
         (default []
            (phil_era (default no_philosopher (PHILOSOPHERS !! philosopher_key))))
         (default author_key
            (auth_name (default no_author (AUTHORS !! author_key))))
         front_matter_text (slice_to 500 (content m)) topic).
Proof.
  intros Hlast. unfold create_prompt.
  destruct history as [|t rest]; [discriminate|].
  cbn [truthy andb]. rewrite Hlast. reflexivity.
Qed.

(** C9. For a non-empty history, whose most recent turn is [m], the
    response prompt is the head of the template, then, between double
    quotes, the first 500 characters of [m]'s content, then the tail of
    the template; the quoted text is the whole content when that has at
    most 500 characters. *)
Theorem response_prompt_quotes_previous_turn
    (philosopher_key author_key topic : str) (history : list turn) (m : turn) :
  last history = Some m ->
  exists name era author_name : str,
    create_prompt PHILOSOPHERS AUTHORS philosopher_key author_key topic history true
      = Returned (response_head name era author_name front_matter_text ++
                  dq ++ take 500 (content m) ++ dq ++
                  response_tail author_name topic) /\
    length (take 500 (content m)) = Nat.min 500 (length (content m)) /\
    ((length (content m) <= 500)%nat -> take 500 (content m) = content m).
Proof.
  intros Hlast. eexists _, _, _. split; [|split].
  - rewrite (create_prompt_response _ _ _ _ _ Hlast). reflexivity.
  - apply length_take.
  - apply take_ge.
Qed.

End prompts.

(** ** Starting a dialogue *)

Section handlers.
Context (PHILOSOPHERS : gmap str philosopher) (AUTHORS : gmap str author).

Local Abbreviation generate_opening := (generate_opening PHILOSOPHERS AUTHORS).
Local Abbreviation handle_start_dialogue := (handle_start_dialogue PHILOSOPHERS AUTHORS).
Local Abbreviation continuation_round := (continuation_round PHILOSOPHERS AUTHORS).
Local Abbreviation continuation_rounds := (continuation_rounds PHILOSOPHERS AUTHORS).
Local Abbreviation generate_continuation := (generate_continuation PHILOSOPHERS AUTHORS).
Local Abbreviation handle_continue_dialogue := (handle_continue_dialogue PHILOSOPHERS AUTHORS).
Local Abbreviation handle := (handle PHILOSOPHERS AUTHORS).
Local Abbreviation run_calls := (run_calls PHILOSOPHERS AUTHORS).

(** The opening task ends in an exception before it asks the backend for
    anything: a missing field of the config, or the unassigned local of
    [create_prompt]. *)
Lemma generate_opening_raises (data : gmap str str) (cid : str)
    (g1 g2 : generation) (w : world) :
  exists e : exn,
    generate_opening data cid g1 g2 w = (Raised e, w) /\
    (is_Some (data !! lit "philosopher1") -> is_Some (data !! lit "author1") ->
     is_Some (data !! lit "topic") ->
     e = UnboundLocalError (lit "front_matter")).
Proof.
  unfold App.generate_opening, bind, lift, getitem.
  destruct (data !! lit "philosopher1") as [p|];
    [|eexists; split; [reflexivity|]; by intros [? ?]].
  destruct (data !! lit "author1") as [a|];
    [|eexists; split; [reflexivity|]; by intros _ [? ?]].
  destruct (data !! lit "topic") as [t|];
    [|eexists; split; [reflexivity|]; by intros _ _ [? ?]].
  rewrite create_prompt_opening_raises. eexists; split; reflexivity.
Qed.

Lemma handle_start_dialogue_registers (sid : str) (data : gmap str str)
    (uuid created : str) (g1 g2 : generation) (w : world) :
  exists e : exn,
    handle_start_dialogue sid data uuid created g1 g2 w =
    (Returned (Crashed e),
     {| active_conversations :=
          <[uuid := fresh uuid created data]> (active_conversations w);
        emitted := emitted w ++ [(to_caller sid, dialogue_started uuid data)];
        posted := posted w |}) /\
    (is_Some (data !! lit "philosopher1") -> is_Some (data !! lit "author1") ->
     is_Some (data !! lit "topic") ->
     e = UnboundLocalError (lit "front_matter")).
Proof.
  unfold App.handle_start_dialogue, try_except.
  unfold bind at 1. cbn [get_conversations].
  unfold bind at 1. cbn [put_conversations].
  unfold bind at 1. cbn [emit]. unfold run_thread.
  match goal with |- context [generate_opening data uuid g1 g2 ?w'] =>
    destruct (generate_opening_raises data uuid g1 g2 w') as (e & -> & He)
  end.
  exists e. split; [reflexivity|exact He].
Qed.

(** ** Continuing a dialogue *)

Lemma with_turn_lookup (cid : str) (t : turn) (table : gmap str conversation)
    (c : conversation) :
  table !! cid = Some c ->
  with_turn cid t table !! cid =
  Some {| id := id c; config := config c; history := history c ++ [t];
          created_at := created_at c; exchange_count := exchange_count c |}.
Proof. intros H. unfold with_turn. rewrite H. apply lookup_insert_eq. Qed.

Lemma with_turn_lookup_ne (cid cid' : str) (t : turn)
    (table : gmap str conversation) :
  cid <> cid' -> with_turn cid t table !! cid' = table !! cid'.
Proof.
  intros H. unfold with_turn. destruct (table !! cid); [|reflexivity].
  by apply lookup_insert_ne.
Qed.

(** A generation never raises; it posts one request and moves the table
    by [progress]. *)
Lemma generate_stream_run (model prompt cid : str) (spk : Z)
    (g : generation) (w : world) :
  exists (o : option str) (w' : world),
    generate_stream model prompt cid spk g w = (Returned o, w') /\
    active_conversations w' = progress cid spk g (active_conversations w) /\
    posted w' = posted w ++ [(model, prompt)] /\
    (exists evs, emitted w' = emitted w ++ evs).
Proof.
  unfold progress. destruct (failure g) as [e|] eqn:Hg.
  - rewrite (generate_stream_fails _ _ _ _ _ _ e Hg). eexists _, _.
    split; [reflexivity|]. cbn. eauto.
  - rewrite (generate_stream_completes _ _ _ _ _ _ Hg). eexists _, _.
    split; [reflexivity|]. cbn. eauto.
Qed.

Lemma progress_lookup (cid : str) (spk : Z) (g : generation)
    (table : gmap str conversation) (c : conversation) :
  table !! cid = Some c ->
  progress cid spk g table !! cid =
  Some {| id := id c; config := config c;
          history := history c ++
                     match failure g with
                     | Some _ => []
                     | None => [turn_of spk g]
                     end;
          created_at := created_at c; exchange_count := exchange_count c |}.
Proof.
  intros H. unfold progress. destruct (failure g).
  - rewrite app_nil_r. by destruct c.
  - by apply with_turn_lookup.
Qed.

Lemma progress_lookup_ne (cid cid' : str) (spk : Z) (g : generation)
    (table : gmap str conversation) :
  cid <> cid' -> progress cid spk g table !! cid' = table !! cid'.
Proof.
  intros H. unfold progress. destruct (failure g); [reflexivity|].
  by apply with_turn_lookup_ne.
Qed.

Lemma read_history_lookup (cid : str) (w : world) :
  read_history cid w =
  match active_conversations w !! cid with
  | Some c => (Returned (history c), w)
  | None => (Raised (KeyError cid), w)
  end.
Proof.
  unfold read_history, bind, get_conversations, lift, getitem, ret.
  by destruct (active_conversations w !! cid).
Qed.


(** The continuation task ends at its first statement: [len(history)]
    reads the task's own local [history], which nothing has assigned yet.
    No prompt is composed, nothing is asked of the backend and nothing is
    written. *)
Lemma generate_continuation_raises (cid : str) (cfg : gmap str str)
    (g1 g2 : generation) (w : world) :
  generate_continuation cid cfg g1 g2 w
  = (Raised (UnboundLocalError (lit "history")), w).
Proof. reflexivity. Qed.

Lemma handle_continue_dialogue_known (sid cid : str) (g1 g2 : generation)
    (w : world) (c : conversation) :
  active_conversations w !! cid = Some c ->
  handle_continue_dialogue sid (Some cid) g1 g2 w
  = (Returned (Crashed (UnboundLocalError (lit "history"))), w).
Proof.
  intros Hc. unfold App.handle_continue_dialogue, try_except.
  unfold bind at 1. cbn [get_conversations]. rewrite Hc.
  unfold run_thread. by rewrite generate_continuation_raises.
Qed.

Lemma handle_continue_dialogue_not_found (sid : str)
    (conversation_id : option str) (g1 g2 : generation) (w : world) :
  (forall cid, conversation_id = Some cid ->
               active_conversations w !! cid = None) ->
  handle_continue_dialogue sid conversation_id g1 g2 w =
  (Returned NotStarted,
   {| active_conversations := active_conversations w;
      emitted := emitted w ++
                 [(to_caller sid,
                   generation_error (Text (lit "Conversation not found")))];
      posted := posted w |}).
Proof.
  intros Hno. unfold App.handle_continue_dialogue, try_except.
  unfold bind at 1. cbn [get_conversations].
  destruct conversation_id as [cid|]; [rewrite (Hno cid eq_refl)|]; reflexivity.
Qed.

(** C7. For an identifier that is not in the conversation table,
    [continue_dialogue] starts no task and answers the caller with the
    error "Conversation not found"; the table (histories, exchange
    counters, registrations) and the requests posted to the backend are
    unchanged, and nothing is broadcast to any room: that answer to the
    caller is the only thing sent. *)
Theorem continue_unknown_conversation (sid cid : str) (g1 g2 : generation)
    (w : world) :
  active_conversations w !! cid = None ->
  result (handle_continue_dialogue sid (Some cid) g1 g2) w = Returned NotStarted /\
  active_conversations (after (handle_continue_dialogue sid (Some cid) g1 g2) w)
    = active_conversations w /\
  posted (after (handle_continue_dialogue sid (Some cid) g1 g2) w) = posted w /\
  broadcasts (after (handle_continue_dialogue sid (Some cid) g1 g2) w)
    = broadcasts w /\
  emitted (after (handle_continue_dialogue sid (Some cid) g1 g2) w)
    = emitted w ++
      [(to_caller sid, generation_error (Text (lit "Conversation not found")))].
Proof.
  intros Hno. unfold result, after.
  rewrite handle_continue_dialogue_not_found; [|by intros ? [= <-]].
  cbn [fst snd active_conversations posted emitted]. repeat split.
  unfold broadcasts. cbn [emitted]. rewrite List.filter_app. cbn.
  by rewrite app_nil_r.
Qed.

Lemma even_of_nat (n : nat) : Z.even (Z.of_nat n) = Nat.even n.
Proof.
  induction n as [|n IH]; [reflexivity|].
  rewrite Nat2Z.inj_succ, Z.even_succ, Nat.even_succ.
  by rewrite <- Z.negb_even, <- Nat.negb_even, IH.
Qed.

Lemma next_speaker_role (h : list turn) : next_speaker h = role_at (length h).
Proof.
  unfold next_speaker, role_at. by rewrite <- Zeven_mod, even_of_nat.
Qed.

(** ** What a call does *)

(** Every call returns; it posts nothing, what it emits goes to its
    caller, and the only write to the table is the record that a start
    registers.  No task runs to its end. *)
Lemma handle_effect (k : call) (w : world) :
  exists (t : task) (answers : list (target * event)),
    handle k w
    = (Returned t,
       {| active_conversations :=
            match k with
            | start_dialogue _ data uuid created _ _ =>
                <[uuid := fresh uuid created data]> (active_conversations w)
            | continue_dialogue _ _ _ _ => active_conversations w
            end;
          emitted := emitted w ++ answers;
          posted := posted w |}) /\
    List.filter is_broadcast answers = [] /\
    t <> Finished.
Proof.
  destruct k as [sid data uuid created g1 g2|sid [cid|] g1 g2];
    cbn [App.handle].
  - destruct (handle_start_dialogue_registers sid data uuid created g1 g2 w)
      as (e & -> & _).
    by eexists _, [_].
  - destruct (active_conversations w !! cid) as [c|] eqn:Hc.
    + rewrite (handle_continue_dialogue_known _ _ _ _ _ _ Hc).
      eexists _, []. rewrite app_nil_r. by destruct w.
    + rewrite handle_continue_dialogue_not_found by (by intros ? [= <-]).
      by eexists _, [_].
  - rewrite handle_continue_dialogue_not_found by done.
    by eexists _, [_].
Qed.



(** C1, at the scenario's config (for any uuid, clock and backend
    behaviour).  The opening task raises [UnboundLocalError] when it
    composes the first prompt, because [create_prompt] reads
    [front_matter] on the branch that never assigns it: the conversation
    is registered with an empty history and an exchange counter of 0,
    nothing is asked of the backend, and the only event is the
    [dialogue_started] answer. *)
Theorem start_scenario_appends_nothing (sid uuid created : str)
    (g1 g2 : generation) (w : world) :
  result (handle_start_dialogue sid scenario_config uuid created g1 g2) w
    = Returned (Crashed (UnboundLocalError (lit "front_matter"))) /\
  active_conversations
    (after (handle_start_dialogue sid scenario_config uuid created g1 g2) w)
    !! uuid
    = Some {| id := uuid; config := scenario_config; history := [];
              created_at := created; exchange_count := 0 |} /\
  posted (after (handle_start_dialogue sid scenario_config uuid created g1 g2) w)
    = posted w /\
  emitted (after (handle_start_dialogue sid scenario_config uuid created g1 g2) w)
    = emitted w ++ [(to_caller sid, dialogue_started uuid scenario_config)].
Proof.
  unfold result, after.
  destruct (handle_start_dialogue_registers sid scenario_config uuid created
              g1 g2 w) as (e & -> & He).
  rewrite He by (eexists; reflexivity).
  cbn [fst snd active_conversations posted emitted].
  rewrite lookup_insert_eq. auto.
Qed.

(** C6, as the code has it.  [start_dialogue] checks nothing: for every
    config, complete or not, it registers a record holding that config
    under the new identifier and answers the caller with
    [dialogue_started]; whatever else it emits goes to rooms, so no error
    is reported to the caller. *)
Theorem start_registers_any_config (sid : str) (data : gmap str str)
    (uuid created : str) (g1 g2 : generation) (w : world) :
  exists (c : conversation) (evs : list (target * event)),
    active_conversations
      (after (handle_start_dialogue sid data uuid created g1 g2) w) !! uuid
      = Some c /\
    id c = uuid /\ config c = data /\
    emitted (after (handle_start_dialogue sid data uuid created g1 g2) w)
      = emitted w ++ (to_caller sid, dialogue_started uuid data) :: evs /\
    List.forallb is_broadcast evs = true.
Proof.
  unfold after.
  destruct (handle_start_dialogue_registers sid data uuid created g1 g2 w)
    as (e & -> & _).
  exists (fresh uuid created data), [].
  cbn [snd active_conversations emitted]. rewrite lookup_insert_eq. auto.
Qed.

(** ** Alternation of roles *)


Lemma alternates_from_app (h h' : list turn) :
  forall i : nat,
    alternates_from i (h ++ h') =
    alternates_from i h && alternates_from (i + length h) h'.
Proof.
  induction h as [|t h IH]; intros i; cbn.
  - by rewrite Nat.add_0_r.
  - rewrite IH, <- andb_assoc. by rewrite Nat.add_succ_r.
Qed.

Lemma alternates_next (h : list turn) (t : turn) :
  alternates h = true -> speaker t = next_speaker h ->
  alternates (h ++ [t]) = true.
Proof.
  unfold alternates. intros Hh Ht. rewrite alternates_from_app, Hh. cbn.
  rewrite Ht, next_speaker_role, Z.eqb_refl. reflexivity.
Qed.








End handlers.

(** ** At the sample inputs *)

(** C8, at keys that neither catalog has.  Composing the opening prompt
    raises [UnboundLocalError]: the opening branch of [create_prompt]
    reads the local [front_matter], which only the response branch
    assigns. *)
Theorem opening_prompt_unknown_keys_raises :
  get_default_philosophers !! lit "zeno" = None /\
  get_default_authors !! lit "nobody" = None /\
  create_prompt get_default_philosophers get_default_authors
    (lit "zeno") (lit "nobody") (lit "free will") [] false
  = Raised (UnboundLocalError (lit "front_matter")).
Proof. repeat split; reflexivity. Qed.

(** In the response role an unknown key does not raise: the key stands in
    for the name and the era is the empty string. *)
Lemma response_prompt_unknown_keys (PHILOSOPHERS : gmap str philosopher)
    (AUTHORS : gmap str author) (philosopher_key author_key topic : str)
    (history : list turn) (m : turn) :
  PHILOSOPHERS !! philosopher_key = None ->
  AUTHORS !! author_key = None ->
  last history = Some m ->
  create_prompt PHILOSOPHERS AUTHORS philosopher_key author_key topic history true
  = Returned (response_template philosopher_key [] author_key
                front_matter_text (take 500 (content m)) topic).
Proof.
  intros Hp Ha Hlast. rewrite (create_prompt_response _ _ _ _ _ _ _ Hlast).
  by rewrite Hp, Ha.
Qed.

Lemma failed_generation_appends_nothing_witness :
  failure broken_reply = Some (RequestError (lit "Connection reset by peer")) /\
  result (generate_stream (lit "mistral:7b") (lit "p") (lit "c-1") 1 broken_reply)
    sample_world = Returned None /\
  active_conversations
    (after (generate_stream (lit "mistral:7b") (lit "p") (lit "c-1") 1 broken_reply)
       sample_world)
    = active_conversations sample_world /\
  emitted
    (after (generate_stream (lit "mistral:7b") (lit "p") (lit "c-1") 1 broken_reply)
       sample_world)
    = emitted sample_world ++
      [(to_room (lit "c-1"), generation_start 1 (lit "c-1"))] ++
      chunk_events (lit "c-1") 1 (fragments broken_reply) ++
      [(to_room (lit "c-1"),
        generation_error (StrOf (RequestError (lit "Connection reset by peer"))))].
Proof.
  split; [reflexivity|].
  apply (failed_generation_appends_nothing (lit "mistral:7b") (lit "p")
           (lit "c-1") 1 broken_reply sample_world).
  reflexivity.
Defined.

Lemma passed_over_line_leaves_no_trace_witness :
  passed_over (Json (JObj [(lit "done", JBool false)])) = true /\
  generate_stream (lit "mistral:7b") (lit "p") (lit "c-1") 1
    {| stream := stream (reply (lit "a")) ++
                 Json (JObj [(lit "done", JBool false)]) :: stream (reply (lit "b"));
       fault := None; now := lit "2025-01-01T00:00:02" |} sample_world
  = generate_stream (lit "mistral:7b") (lit "p") (lit "c-1") 1
      {| stream := stream (reply (lit "a")) ++ stream (reply (lit "b"));
         fault := None; now := lit "2025-01-01T00:00:02" |} sample_world.
Proof.
  split; [reflexivity|].
  apply (passed_over_line_leaves_no_trace (lit "mistral:7b") (lit "p")
           (lit "c-1") 1 (stream (reply (lit "a")))
           (stream (reply (lit "b")))
           (Json (JObj [(lit "done", JBool false)])) None
           (lit "2025-01-01T00:00:02") sample_world).
  reflexivity.
Defined.

Lemma response_prompt_quotes_previous_turn_witness :
  last two_turns
    = Some {| speaker := 2; content := lit "Freedom is autonomy.";
              timestamp := lit "2025-01-01T00:00:00" |} /\
  exists name era author_name : str,
    create_prompt get_default_philosophers get_default_authors
      (lit "socrates") (lit "hemingway") (lit "free will") two_turns true
    = Returned (response_head name era author_name front_matter_text ++
                dq ++ take 500 (lit "Freedom is autonomy.") ++ dq ++
                response_tail author_name (lit "free will")) /\
    length (take 500 (lit "Freedom is autonomy."))
      = Nat.min 500 (length (lit "Freedom is autonomy.")) /\
    ((length (lit "Freedom is autonomy.") <= 500)%nat ->
     take 500 (lit "Freedom is autonomy.") = lit "Freedom is autonomy.").
Proof.
  split; [reflexivity|].
  apply (response_prompt_quotes_previous_turn get_default_philosophers
           get_default_authors (lit "socrates") (lit "hemingway")
           (lit "free will") two_turns
           {| speaker := 2; content := lit "Freedom is autonomy.";
              timestamp := lit "2025-01-01T00:00:00" |}).
  reflexivity.
Defined.

Lemma continue_unknown_conversation_witness :
  active_conversations sample_world !! lit "c-404" = None /\
  result (handle_continue_dialogue get_default_philosophers get_default_authors
            (lit "sid-1") (Some (lit "c-404")) (reply (lit "a")) (reply (lit "b")))
    sample_world = Returned NotStarted /\
  active_conversations
    (after (handle_continue_dialogue get_default_philosophers get_default_authors
              (lit "sid-1") (Some (lit "c-404")) (reply (lit "a")) (reply (lit "b")))
       sample_world) = active_conversations sample_world.
Proof.
  split; [reflexivity|].
  destruct (continue_unknown_conversation get_default_philosophers
              get_default_authors (lit "sid-1") (lit "c-404")
              (reply (lit "a")) (reply (lit "b")) sample_world)
    as (Hres & Htable & _); [reflexivity|].
  split; [exact Hres|exact Htable].
Defined.


(** C4 as stated fails: a stream that goes wrong without an exception
    is no failure for [generate_stream].  After one fragment the stream
    of [cut_reply] delivers a line cut in the middle of its JSON and then
    the backend's error report; the generation completes, the turn made
    of the fragment received is appended, and the room is told
    [generation_complete], not [generation_error]. *)
Lemma cut_stream_appends_partial_turn :
  result (generate_stream (lit "mistral:7b") (lit "p") (lit "c-1") 1 cut_reply)
    sample_world = Returned (Some (lit "Virtue is")) /\
  (history <$>
     active_conversations
       (after (generate_stream (lit "mistral:7b") (lit "p") (lit "c-1") 1 cut_reply)
          sample_world) !! lit "c-1")
  = Some (two_turns ++
          [{| speaker := 1; content := lit "Virtue is";
              timestamp := lit "2025-01-01T00:00:01" |}]) /\
  emitted
    (after (generate_stream (lit "mistral:7b") (lit "p") (lit "c-1") 1 cut_reply)
       sample_world)
  = [(to_room (lit "c-1"), generation_start 1 (lit "c-1"));
     (to_room (lit "c-1"), message_chunk 1 (lit "Virtue is") (lit "c-1"));
     (to_room (lit "c-1"), generation_complete 1 (lit "Virtue is"))].
Proof. repeat split; vm_compute; reflexivity. Qed.

(** C10 as stated fails: a line of bytes that are not UTF-8 is not valid
    JSON, but [json.loads] raises [UnicodeDecodeError] on it, which the
    loop does not catch.  With such a line after its fragment, the stream
    of [reply] no longer yields a turn: the generation ends in
    [generation_error] and the table is what it was; without the line it
    completes and appends the turn. *)
Lemma unreadable_line_ends_the_generation :
  stream (garbled_reply (lit "a"))
    = take 1 (stream (reply (lit "a"))) ++
      Unreadable (UnicodeDecodeError (lit "invalid start byte")) ::
      drop 1 (stream (reply (lit "a"))) /\
  result (generate_stream (lit "mistral:7b") (lit "p") (lit "c-1") 1
            (garbled_reply (lit "a"))) sample_world = Returned None /\
  active_conversations
    (after (generate_stream (lit "mistral:7b") (lit "p") (lit "c-1") 1
              (garbled_reply (lit "a"))) sample_world)
    = active_conversations sample_world /\
  last (emitted
          (after (generate_stream (lit "mistral:7b") (lit "p") (lit "c-1") 1
                    (garbled_reply (lit "a"))) sample_world))
    = Some (to_room (lit "c-1"),
            generation_error
              (StrOf (UnicodeDecodeError (lit "invalid start byte")))) /\
  result (generate_stream (lit "mistral:7b") (lit "p") (lit "c-1") 1
            (reply (lit "a"))) sample_world = Returned (Some (lit "a")) /\
  (history <$>
     active_conversations
       (after (generate_stream (lit "mistral:7b") (lit "p") (lit "c-1") 1
                 (reply (lit "a"))) sample_world) !! lit "c-1")
  = Some (two_turns ++
          [{| speaker := 1; content := lit "a";
              timestamp := lit "2025-01-01T00:00:02" |}]).
Proof. repeat split; vm_compute; reflexivity. Qed.

(** C6 as stated fails: with a config that has none of the required
    fields, the record is registered all the same and the caller is told
    [dialogue_started], not an error. *)
Lemma start_registers_config_without_fields :
  active_conversations
    (after (handle_start_dialogue get_default_philosophers get_default_authors
              (lit "sid-1") ∅ (lit "c-9") (lit "2025-01-01T00:00:00")
              (reply (lit "a")) (reply (lit "b")))
       initial_world) !! lit "c-9"
  = Some (fresh (lit "c-9") (lit "2025-01-01T00:00:00") ∅) /\
  emitted
    (after (handle_start_dialogue get_default_philosophers get_default_authors
              (lit "sid-1") ∅ (lit "c-9") (lit "2025-01-01T00:00:00")
              (reply (lit "a")) (reply (lit "b")))
       initial_world)
  = [(to_caller (lit "sid-1"), dialogue_started (lit "c-9") ∅)].
Proof. split; vm_compute; reflexivity. Qed.

(** A line that is valid JSON but not an object is not passed over:
    [null] makes the membership test raise, which ends the generation. *)
Example null_line_ends_the_generation :
  failure {| stream := [Json JNull]; fault := None; now := [] |} = Some TypeError.
Proof. reflexivity. Qed.

(** The status of the HTTP answer is not looked at: a stream that carries
    only an error object, as the body of a non-2xx answer does, raises
    nothing, and the generation completes with an empty turn. *)
Example error_body_completes_with_empty_turn :
  failure {| stream := [Json (JObj [(lit "error", JStr (lit "model not found"))])];
             fault := None; now := [] |} = None /\
  full_text {| stream := [Json (JObj [(lit "error", JStr (lit "model not found"))])];
               fault := None; now := [] |} = [].
Proof. split; reflexivity. Qed.

(** A continue call on the conversation of [sample_world]: the task ends
    at its first statement and the state is what it was. *)
Example continue_sample_crashes :
  handle_continue_dialogue get_default_philosophers get_default_authors
    (lit "sid-1") (Some (lit "c-1")) (reply (lit "a")) (reply (lit "b"))
    sample_world
  = (Returned (Crashed (UnboundLocalError (lit "history"))), sample_world).
Proof. vm_compute. reflexivity. Qed.

End AppTheory.

(** * Properties of dialogue-backend.py *)

Module BackendTheory.

Import Backend.
Local Open Scope Z_scope.

Section facts.
Context (title : str -> str).

Local Abbreviation exchange := (exchange title).
Local Abbreviation exchanges := (exchanges title).
Local Abbreviation generate_dialogue := (generate_dialogue title).
Local Abbreviation create_philosopher_prompt := (create_philosopher_prompt title).
Local Abbreviation system_part := (system_part title).
Local Abbreviation opening_part := (opening_part title).

(** ** Prompt composition *)

(** For keys that the catalogs do not have, every descriptive field of
    the system part is the empty string. *)
Lemma system_part_unknown_keys (philosopher_key author_key topic : str) :
  PHILOSOPHER_PROFILES !! philosopher_key = None ->
  AUTHOR_STYLES !! author_key = None ->
  system_part philosopher_key author_key topic =
  lit "You are " ++ display title philosopher_key ++ lit ", the " ++
  [] ++ lit " philosopher, " ++ nl ++
  lit "but you must express your philosophical ideas through the literary voice and style of " ++
  display title author_key ++ lit "." ++ nl ++
  nl ++
  lit "Your philosophical position includes:" ++ nl ++
  lit "- Key concepts: " ++ [] ++ nl ++
  lit "- Core beliefs: " ++ [] ++ nl ++
  lit "- Philosophical style: " ++ [] ++ nl ++
  nl ++
  lit "You must express these ideas using:" ++ nl ++
  lit "- Writing characteristics: " ++ [] ++ nl ++
  lit "- Literary voice: " ++ [] ++ nl ++
  nl ++
  lit "The discussion topic is: " ++ dq ++ topic ++ dq ++ nl.
Proof. intros Hp Ha. unfold Backend.system_part. by rewrite Hp, Ha. Qed.

(** Composition is a total function: it returns a prompt in both roles,
    whatever the keys; without history the prompt is the system part
    followed by the instruction of the role. *)
Lemma create_philosopher_prompt_no_history (philosopher_key author_key topic : str)
    (is_response : bool) (other_philosopher : option str) :
  create_philosopher_prompt philosopher_key author_key topic [] is_response
    other_philosopher
  = system_part philosopher_key author_key topic ++ nl ++
    match (if is_response then given other_philosopher else None) with
    | Some other => response_part title philosopher_key author_key topic other
    | None => opening_part philosopher_key author_key topic
    end.
Proof.
  unfold Backend.create_philosopher_prompt. cbn [truthy].
  by destruct (if is_response then given other_philosopher else None).
Qed.

(** ** The generation loop *)

Ltac getitem_with H :=
  unfold bind at 1, lift at 1, getitem at 1; rewrite H; cbv beta iota.

Section complete_request.
Context (data : gmap str str).
Context (philosopher1 author1 model1 philosopher2 author2 model2 topic : str).
Hypothesis Hphilosopher1 : data !! lit "philosopher1" = Some philosopher1.
Hypothesis Hauthor1 : data !! lit "author1" = Some author1.
Hypothesis Hmodel1 : data !! lit "model1" = Some model1.
Hypothesis Hphilosopher2 : data !! lit "philosopher2" = Some philosopher2.
Hypothesis Hauthor2 : data !! lit "author2" = Some author2.
Hypothesis Hmodel2 : data !! lit "model2" = Some model2.
Hypothesis Htopic : data !! lit "topic" = Some topic.

Lemma generate_response_run (philosopher_key author_key model : str)
    (history : list message) (is_response : bool)
    (other_philosopher : option str) (a : answer) (s : session) :
  Backend.generate_response title philosopher_key author_key model topic history
    is_response other_philosopher a s
  = (html a,
     {| history := Backend.history s; yielded := yielded s;
        requested := requested s ++
          [(model,
            create_philosopher_prompt philosopher_key author_key topic history
              is_response other_philosopher)] |}).
Proof. reflexivity. Qed.

Lemma exchange_run (i : nat) (a : answer) (s : session) (text : str) :
  html a = Returned text ->
  exists request : str * str,
    exchange data i a s =
    (Returned tt,
     {| history := history s ++
          [{| msg_philosopher :=
                if first (length (history s)) i then philosopher1 else philosopher2;
              msg_author :=
                if first (length (history s)) i then author1 else author2;
              pairing := if first (length (history s)) i then 1 else 2;
              msg_content := text; msg_timestamp := stamp a |}];
        yielded := yielded s ++
          [message_event
             {| msg_philosopher :=
                  if first (length (history s)) i then philosopher1 else philosopher2;
                msg_author :=
                  if first (length (history s)) i then author1 else author2;
                pairing := if first (length (history s)) i then 1 else 2;
                msg_content := text; msg_timestamp := stamp a |}];
        requested := requested s ++ [request] |}).
Proof using Hphilosopher1 Hauthor1 Hmodel1 Hphilosopher2 Hauthor2 Hmodel2 Htopic.
  intros Hhtml. unfold Backend.exchange.
  unfold bind at 1. cbn [get_history]. cbv zeta.
  destruct (first (length (history s)) i).
  - getitem_with Hphilosopher1. getitem_with Hauthor1. getitem_with Hmodel1.
    unfold bind at 1.
    destruct (0 <? Z.of_nat (length (history s))).
    + getitem_with Hphilosopher2. unfold bind at 1, ret at 1. cbv beta iota.
      getitem_with Htopic. unfold bind at 1. rewrite generate_response_run, Hhtml.
      eexists. reflexivity.
    + unfold ret at 1. cbv beta iota.
      getitem_with Htopic. unfold bind at 1. rewrite generate_response_run, Hhtml.
      eexists. reflexivity.
  - getitem_with Hphilosopher2. getitem_with Hauthor2. getitem_with Hmodel2.
    unfold bind at 1. getitem_with Hphilosopher1. unfold ret at 1. cbv beta iota.
    getitem_with Htopic. unfold bind at 1. rewrite generate_response_run, Hhtml.
    eexists. reflexivity.
Qed.

Lemma first_next (n : nat) : first (n + 1) 1 = first n 0.
Proof.
  unfold Backend.first.
  assert (Z.of_nat (n + 1) + Z.of_nat 1 = Z.of_nat n + Z.of_nat 0 + 1 * 2)
    as -> by lia.
  by rewrite Z_mod_plus_full.
Qed.

(** When both answers arrive, the two messages of a request come from the
    same pairing: the second round adds its index to a length that the
    first round has already increased. *)
Lemma generate_dialogue_same_pairing (sent : option (list message))
    (a1 a2 : answer) (text1 text2 : str) :
  html a1 = Returned text1 -> html a2 = Returned text2 ->
  exists m1 m2 : message,
    yielded (generate_dialogue data sent a1 a2)
      = [message_event m1; message_event m2] /\
    pairing m1 = (if first (length (default [] sent)) 0 then 1 else 2) /\
    pairing m2 = pairing m1 /\
    msg_philosopher m2 = msg_philosopher m1.
Proof using Hphilosopher1 Hauthor1 Hmodel1 Hphilosopher2 Hauthor2 Hmodel2 Htopic.
  intros H1 H2. unfold Backend.generate_dialogue, after, try_except.
  cbn [Backend.exchanges]. unfold bind at 1.
  destruct (exchange_run 0 a1
              {| history := default [] sent; yielded := []; requested := [] |}
              text1 H1) as [r1 ->].
  cbn [history yielded requested].
  unfold bind at 1.
  match goal with |- context [exchange data 1 a2 ?s] =>
    destruct (exchange_run 1 a2 s text2 H2) as [r2 ->]
  end.
  cbn [history yielded requested ret snd app].
  rewrite length_app. cbn [length]. rewrite first_next.
  eexists _, _. split; [reflexivity|]. cbn. auto.
Qed.

End complete_request.

(** C2, at a request that continues a dialogue of two messages (one of
    each pairing) with the scenario's config, for any two answers of the
    model.  Both new messages come from pairing 1, speaking as the first
    philosopher: the parity rule would give pairing 1 and then pairing 2. *)
Theorem generate_dialogue_repeats_pairing (text1 text2 stamp1 stamp2 : str) :
  yielded
    (generate_dialogue App.scenario_config (Some sent_history)
       {| html := Returned text1; stamp := stamp1 |}
       {| html := Returned text2; stamp := stamp2 |})
  = [message_event
       {| msg_philosopher := lit "socrates"; msg_author := lit "hemingway";
          pairing := 1; msg_content := text1; msg_timestamp := stamp1 |};
     message_event
       {| msg_philosopher := lit "socrates"; msg_author := lit "hemingway";
          pairing := 1; msg_content := text2; msg_timestamp := stamp2 |}].
Proof. vm_compute. reflexivity. Qed.

End facts.

End BackendTheory.

(** * Further properties of app.py *)

Module AppMore.

Import App AppTheory Notions.
Local Open Scope Z_scope.

(** ** One generation *)

(** X1. When a generation is not cut short, for a registered
    conversation, what is stored is what was streamed: the text of the
    appended turn and of [generation_complete] is the concatenation, in
    order, of the texts of the [message_chunk] events broadcast between
    [generation_start] and [generation_complete]; exactly one turn is
    appended, with the given speaker and the clock's timestamp. *)
Theorem completed_generation_stores_what_it_streamed
    (model prompt cid : str) (spk : Z) (g : generation) (w : world)
    (c : conversation) :
  failure g = None ->
  active_conversations w !! cid = Some c ->
  exists texts : list str,
    result (generate_stream model prompt cid spk g) w
      = Returned (Some (concat texts)) /\
    emitted (after (generate_stream model prompt cid spk g) w)
      = emitted w ++
        [(to_room cid, generation_start spk cid)] ++
        List.map (fun text => (to_room cid, message_chunk spk text cid)) texts ++
        [(to_room cid, generation_complete spk (concat texts))] /\
    active_conversations (after (generate_stream model prompt cid spk g) w) !! cid
      = Some {| id := id c; config := config c;
                history := history c ++
                           [{| speaker := spk; content := concat texts;
                               timestamp := now g |}];
                created_at := created_at c;
                exchange_count := exchange_count c |}.
Proof.
  intros Hok Hc. exists (fragments g). unfold result, after.
  rewrite (generate_stream_completes _ _ _ _ _ _ Hok).
  cbn [fst snd emitted active_conversations].
  split; [reflexivity|]. split; [reflexivity|].
  by rewrite (with_turn_lookup _ _ _ _ Hc).
Qed.

(** X2. A generation for an identifier that is not registered still runs
    and still announces its completion to that room, but stores nothing:
    the conversation table is unchanged. *)
Theorem generation_for_unregistered_id_stores_nothing
    (model prompt cid : str) (spk : Z) (g : generation) (w : world) :
  failure g = None ->
  active_conversations w !! cid = None ->
  active_conversations (after (generate_stream model prompt cid spk g) w)
    = active_conversations w /\
  last (emitted (after (generate_stream model prompt cid spk g) w))
    = Some (to_room cid, generation_complete spk (full_text g)) /\
  posted (after (generate_stream model prompt cid spk g) w)
    = posted w ++ [(model, prompt)].
Proof.
  intros Hok Hno. unfold after.
  rewrite (generate_stream_completes _ _ _ _ _ _ Hok).
  cbn [snd emitted active_conversations posted]. split; [|split].
  - unfold with_turn. by rewrite Hno.
  - by rewrite !app_assoc, last_snoc.
  - reflexivity.
Qed.

(** X3. Whatever the backend does, a generation returns (it never
    raises), posts exactly one request, and emits a run of events that
    all go to the room of its conversation, begins with
    [generation_start], ends with [generation_complete] or
    [generation_error], and has only [message_chunk] events in between. *)
Theorem generation_events_are_scoped_and_bracketed
    (model prompt cid : str) (spk : Z) (g : generation) (w : world) :
  exists (o : option str) (chunks : list str) (closing : event),
    result (generate_stream model prompt cid spk g) w = Returned o /\
    posted (after (generate_stream model prompt cid spk g) w)
      = posted w ++ [(model, prompt)] /\
    emitted (after (generate_stream model prompt cid spk g) w)
      = emitted w ++
        [(to_room cid, generation_start spk cid)] ++
        List.map (fun text => (to_room cid, message_chunk spk text cid)) chunks ++
        [(to_room cid, closing)] /\
    closes closing = true /\
    (o = None <-> exists e, closing = generation_error (StrOf e)).
Proof.
  unfold result, after. destruct (failure g) as [e|] eqn:Hg.
  - rewrite (generate_stream_fails _ _ _ _ _ _ e Hg).
    exists None, (fragments g), (generation_error (StrOf e)).
    cbn. repeat split; eauto.
  - rewrite (generate_stream_completes _ _ _ _ _ _ Hg).
    exists (Some (full_text g)), (fragments g),
      (generation_complete spk (full_text g)).
    cbn. repeat split; try done. by intros [? ?].
Qed.

(** X4. A generation touches no conversation but its own: the record of
    every other identifier is what it was. *)
Theorem generation_leaves_other_conversations
    (model prompt cid cid' : str) (spk : Z) (g : generation) (w : world) :
  cid <> cid' ->
  active_conversations (after (generate_stream model prompt cid spk g) w) !! cid'
    = active_conversations w !! cid'.
Proof.
  intros Hne. unfold after.
  destruct (generate_stream_run model prompt cid spk g w)
    as (o & w' & -> & Htable & _).
  cbn [snd]. rewrite Htable. by apply progress_lookup_ne.
Qed.

(** ** Prompt composition *)

Section prompts.
Context (PHILOSOPHERS : gmap str philosopher) (AUTHORS : gmap str author).

(** X5. The response prompt looks at nothing of the history but the
    first 500 characters of its last turn: two histories whose last turns
    agree on those characters give the same prompt, whatever their
    lengths, earlier turns, speakers and timestamps. *)
Theorem response_prompt_depends_on_last_turn_only
    (philosopher_key author_key topic : str) (h h' : list turn) (m m' : turn) :
  last h = Some m -> last h' = Some m' ->
  take 500 (content m) = take 500 (content m') ->
  create_prompt PHILOSOPHERS AUTHORS philosopher_key author_key topic h true
  = create_prompt PHILOSOPHERS AUTHORS philosopher_key author_key topic h' true.
Proof.
  intros Hh Hh' Heq.
  rewrite (create_prompt_response _ _ _ _ _ _ _ Hh).
  rewrite (create_prompt_response _ _ _ _ _ _ _ Hh').
  unfold slice_to. by rewrite Heq.
Qed.

(** X6. In the response role a key that a catalog does not have does not
    raise: the key itself stands where the name would, and the era is the
    empty string. *)
Theorem response_prompt_falls_back_to_keys
    (philosopher_key author_key topic : str) (history : list turn) (m : turn) :
  PHILOSOPHERS !! philosopher_key = None ->
  AUTHORS !! author_key = None ->
  last history = Some m ->
  create_prompt PHILOSOPHERS AUTHORS philosopher_key author_key topic history true
  = Returned
      (lit "You are " ++ philosopher_key ++ lit ", the " ++ [] ++
       lit " philosopher." ++ nl ++
       lit "Express your philosophical ideas through the author " ++
       author_key ++ lit "'s literary style." ++ nl ++ nl ++
       front_matter_text ++ nl ++ nl ++
       lit "Previous statement to respond to:" ++ nl ++
       dq ++ take 500 (content m) ++ dq ++
       response_tail author_key topic).
Proof.
  intros Hp Ha Hlast.
  rewrite (create_prompt_response _ _ _ _ _ _ _ Hlast), Hp, Ha.
  unfold response_template, response_head, slice_to. cbn [default no_philosopher
    no_author phil_name phil_era auth_name].
  by rewrite <- !app_assoc.
Qed.

End prompts.

(** ** The handlers *)

Section handlers.
Context (PHILOSOPHERS : gmap str philosopher) (AUTHORS : gmap str author).

Local Abbreviation handle_start_dialogue := (handle_start_dialogue PHILOSOPHERS AUTHORS).
Local Abbreviation handle_continue_dialogue := (handle_continue_dialogue PHILOSOPHERS AUTHORS).
Local Abbreviation handle := (handle PHILOSOPHERS AUTHORS).
Local Abbreviation run_calls := (run_calls PHILOSOPHERS AUTHORS).

(** The table after any call. *)
Lemma handle_table (k : call) (w : world) :
  active_conversations (after (handle k) w) = active_conversations w \/
  exists (cid : str) (c : conversation),
    addresses k = Some cid /\ creates cid k = true /\
    active_conversations (after (handle k) w)
      = <[cid := c]> (active_conversations w).
Proof.
  unfold after.
  destruct (handle_effect PHILOSOPHERS AUTHORS k w)
    as (t & answers & -> & _).
  cbn [snd active_conversations].
  destruct k as [sid data uuid created g1 g2|]; [|by left].
  right. exists uuid, (fresh uuid created data). cbn.
  by rewrite bool_decide_eq_true_2.
Qed.

(** X7. Nothing ever unregisters a conversation: an identifier that is in
    the table stays in it through any sequence of start and continue
    calls. *)
Theorem conversations_are_never_removed (calls : list call) (w : world)
    (cid : str) :
  is_Some (active_conversations w !! cid) ->
  is_Some (active_conversations (run_calls calls w) !! cid).
Proof.
  revert w. induction calls as [|k calls IH]; intros w Hin; [exact Hin|].
  cbn. apply IH.
  destruct (handle_table k w) as [->|(cid' & c & _ & _ & ->)]; [exact Hin|].
  destruct (decide (cid' = cid)) as [->|Hne].
  - rewrite lookup_insert_eq. eauto.
  - by rewrite lookup_insert_ne.
Qed.

Lemma handle_keeps (k : call) (w : world) (cid : str) (c0 : conversation) :
  creates cid k = false ->
  active_conversations w !! cid = Some c0 ->
  active_conversations (after (handle k) w) !! cid = Some c0.
Proof.
  intros Hk Hc0.
  destruct (handle_table k w) as [->|(cid' & c & _ & Hcreates & ->)];
    [exact Hc0|].
  destruct (decide (cid' = cid)) as [->|Hne]; [congruence|].
  by rewrite lookup_insert_ne.
Qed.

(** X8. A conversation only grows.  Through any sequence of calls none of
    which is a start that draws its identifier again, the conversation
    keeps its identifier, config and creation time, its earlier history
    stays as a prefix of the later one (no turn is edited or removed), each
    call adds at most two turns, and the exchange counter never decreases
    and rises by at most 1 per call. *)
Theorem conversation_only_grows (calls : list call) (w : world) (cid : str)
    (c0 : conversation) :
  forallb (fun k => negb (creates cid k)) calls = true ->
  active_conversations w !! cid = Some c0 ->
  exists c1 : conversation,
    active_conversations (run_calls calls w) !! cid = Some c1 /\
    id c1 = id c0 /\ config c1 = config c0 /\ created_at c1 = created_at c0 /\
    history c0 `prefix_of` history c1 /\
    (length (history c1) <= length (history c0) + 2 * length calls)%nat /\
    exchange_count c0 <= exchange_count c1
      <= exchange_count c0 + Z.of_nat (length calls).
Proof.
  revert w. induction calls as [|k calls IH]; intros w Hcalls Hc0.
  - exists c0. cbn. repeat split; try done; lia.
  - cbn in Hcalls. apply andb_prop in Hcalls as [Hk Hcalls].
    apply negb_true_iff in Hk.
    destruct (IH _ Hcalls (handle_keeps k w cid c0 Hk Hc0))
      as (c1 & Hc1 & Hid & Hcfg & Hat & Hpre & Hlen & Hcnt).
    exists c1. cbn [fold_left App.run_calls length]. split; [exact Hc1|].
    repeat split; try done; lia.
Qed.

(** X9. A call touches no conversation but the one it addresses: the
    record of every other identifier is what it was. *)
Theorem call_leaves_other_conversations (k : call) (w : world) (cid : str) :
  addresses k <> Some cid ->
  active_conversations (after (handle k) w) !! cid
    = active_conversations w !! cid.
Proof.
  intros Hother.
  destruct (handle_table k w) as [->|(cid' & c & Haddr & _ & ->)]; [done|].
  apply lookup_insert_ne. congruence.
Qed.

(** X11. A continue call on a registered conversation does nothing and
    says nothing, whatever the history, the config and the backend: its
    task ends at its first statement, where [len(history)] reads a local
    that nothing has assigned yet, so no prompt is composed, the whole
    state (table, events, requests) is what it was, and the caller
    receives no answer. *)
Theorem continue_on_registered_conversation_is_silent (sid cid : str)
    (g1 g2 : generation) (w : world) (c : conversation) :
  active_conversations w !! cid = Some c ->
  result (handle_continue_dialogue sid (Some cid) g1 g2) w
    = Returned (Crashed (UnboundLocalError (lit "history"))) /\
  after (handle_continue_dialogue sid (Some cid) g1 g2) w = w.
Proof.
  intros Hc. unfold result, after.
  by rewrite (handle_continue_dialogue_known _ _ _ _ _ _ _ _ Hc).
Qed.

Lemma handle_pristine (k : call) (w : world) :
  pristine w -> pristine (after (handle k) w).
Proof.
  intros (Htable & Hposted & Hcast). unfold after.
  destruct (handle_effect PHILOSOPHERS AUTHORS k w)
    as (t & answers & -> & Hcaller & _).
  cbn [snd]. split; [|split].
  - cbn [active_conversations].
    destruct k as [sid data uuid created g1 g2|]; [|exact Htable].
    intros cid c. destruct (decide (uuid = cid)) as [<-|Hne].
    + rewrite lookup_insert_eq. by intros [= <-].
    + rewrite lookup_insert_ne by done. apply Htable.
  - exact Hposted.
  - unfold broadcasts in *. cbn [emitted].
    by rewrite List.filter_app, Hcaller, app_nil_r.
Qed.

(** X12. From the initial state nothing is ever generated: after any
    sequence of start and continue calls, whatever the configs and
    whatever the backend would answer, every history is empty, every
    exchange counter is 0, no request has been posted to the backend and
    no event has been broadcast to any room. *)
Theorem nothing_is_generated_from_the_initial_state (calls : list call) :
  pristine (run_calls calls initial_world).
Proof.
  assert (forall calls w, pristine w -> pristine (run_calls calls w)) as Hgen.
  { clear. intros calls. induction calls as [|k calls IH]; intros w Hw; [exact Hw|].
    cbn. apply IH. by apply handle_pristine. }
  apply Hgen. split; [|by split]. intros cid c. cbn. by rewrite lookup_empty.
Qed.

End handlers.

(** ** At sample inputs *)

Lemma completed_generation_stores_what_it_streamed_witness :
  failure (reply (lit "a")) = None /\
  active_conversations sample_world !! lit "c-1"
    = Some {| id := lit "c-1"; config := scenario_config; history := two_turns;
              created_at := lit "2025-01-01T00:00:00"; exchange_count := 1 |} /\
  exists texts : list str,
    result (generate_stream (lit "llama3.2:3b") (lit "p") (lit "c-1") 1
              (reply (lit "a"))) sample_world
    = Returned (Some (concat texts)).
Proof.
  assert (failure (reply (lit "a")) = None) as H1 by reflexivity.
  assert (active_conversations sample_world !! lit "c-1"
          = Some {| id := lit "c-1"; config := scenario_config;
                    history := two_turns;
                    created_at := lit "2025-01-01T00:00:00";
                    exchange_count := 1 |}) as H2 by reflexivity.
  split; [exact H1|]. split; [exact H2|].
  destruct (completed_generation_stores_what_it_streamed (lit "llama3.2:3b")
              (lit "p") (lit "c-1") 1 (reply (lit "a")) sample_world _ H1 H2)
    as (texts & Hres & _).
  exists texts. exact Hres.
Defined.

Lemma generation_for_unregistered_id_stores_nothing_witness :
  failure (reply (lit "a")) = None /\
  active_conversations sample_world !! lit "c-404" = None /\
  active_conversations
    (after (generate_stream (lit "llama3.2:3b") (lit "p") (lit "c-404") 1
              (reply (lit "a"))) sample_world)
  = active_conversations sample_world.
Proof.
  split; [reflexivity|]. split; [reflexivity|].
  exact (proj1 (generation_for_unregistered_id_stores_nothing
                  (lit "llama3.2:3b") (lit "p") (lit "c-404") 1
                  (reply (lit "a")) sample_world eq_refl eq_refl)).
Defined.

Lemma generation_leaves_other_conversations_witness :
  lit "c-2" <> lit "c-1" /\
  active_conversations
    (after (generate_stream (lit "llama3.2:3b") (lit "p") (lit "c-2") 1
              (reply (lit "a"))) sample_world) !! lit "c-1"
  = active_conversations sample_world !! lit "c-1".
Proof.
  assert (lit "c-2" <> lit "c-1") as H by discriminate.
  split; [exact H|].
  exact (generation_leaves_other_conversations (lit "llama3.2:3b") (lit "p")
           (lit "c-2") (lit "c-1") 1 (reply (lit "a")) sample_world H).
Defined.

Lemma response_prompt_depends_on_last_turn_only_witness :
  last two_turns
    = Some {| speaker := 2; content := lit "Freedom is autonomy.";
              timestamp := lit "2025-01-01T00:00:00" |} /\
  last [{| speaker := 1; content := lit "Freedom is autonomy.";
           timestamp := lit "later" |}]
    = Some {| speaker := 1; content := lit "Freedom is autonomy.";
              timestamp := lit "later" |} /\
  create_prompt get_default_philosophers get_default_authors
    (lit "socrates") (lit "hemingway") (lit "free will") two_turns true
  = create_prompt get_default_philosophers get_default_authors
      (lit "socrates") (lit "hemingway") (lit "free will")
      [{| speaker := 1; content := lit "Freedom is autonomy.";
          timestamp := lit "later" |}] true.
Proof.
  split; [reflexivity|]. split; [reflexivity|].
  exact (response_prompt_depends_on_last_turn_only get_default_philosophers
           get_default_authors (lit "socrates") (lit "hemingway")
           (lit "free will") two_turns
           [{| speaker := 1; content := lit "Freedom is autonomy.";
               timestamp := lit "later" |}]
           {| speaker := 2; content := lit "Freedom is autonomy.";
              timestamp := lit "2025-01-01T00:00:00" |}
           {| speaker := 1; content := lit "Freedom is autonomy.";
              timestamp := lit "later" |}
           eq_refl eq_refl eq_refl).
Defined.

Lemma response_prompt_falls_back_to_keys_witness :
  get_default_philosophers !! lit "zeno" = None /\
  get_default_authors !! lit "nobody" = None /\
  last two_turns
    = Some {| speaker := 2; content := lit "Freedom is autonomy.";
              timestamp := lit "2025-01-01T00:00:00" |} /\
  exists prompt : str,
    create_prompt get_default_philosophers get_default_authors
      (lit "zeno") (lit "nobody") (lit "free will") two_turns true
    = Returned prompt.
Proof.
  split; [reflexivity|]. split; [reflexivity|]. split; [reflexivity|].
  eexists.
  exact (response_prompt_falls_back_to_keys get_default_philosophers
           get_default_authors (lit "zeno") (lit "nobody") (lit "free will")
           two_turns
           {| speaker := 2; content := lit "Freedom is autonomy.";
              timestamp := lit "2025-01-01T00:00:00" |}
           eq_refl eq_refl eq_refl).
Defined.

Lemma conversations_are_never_removed_witness :
  is_Some (active_conversations sample_world !! lit "c-1") /\
  is_Some (active_conversations
             (run_calls get_default_philosophers get_default_authors
                sample_calls sample_world) !! lit "c-1").
Proof.
  assert (is_Some (active_conversations sample_world !! lit "c-1")) as H
    by (eexists; reflexivity).
  split; [exact H|].
  exact (conversations_are_never_removed get_default_philosophers
           get_default_authors sample_calls sample_world (lit "c-1") H).
Defined.

Lemma conversation_only_grows_witness :
  forallb (fun k => negb (creates (lit "c-1") k)) sample_calls = true /\
  active_conversations sample_world !! lit "c-1"
    = Some {| id := lit "c-1"; config := scenario_config; history := two_turns;
              created_at := lit "2025-01-01T00:00:00"; exchange_count := 1 |} /\
  exists c1 : conversation,
    active_conversations
      (run_calls get_default_philosophers get_default_authors
         sample_calls sample_world) !! lit "c-1" = Some c1 /\
    config c1 = scenario_config /\
    two_turns `prefix_of` history c1.
Proof.
  assert (forallb (fun k => negb (creates (lit "c-1") k)) sample_calls = true)
    as H1 by reflexivity.
  assert (active_conversations sample_world !! lit "c-1"
          = Some {| id := lit "c-1"; config := scenario_config;
                    history := two_turns;
                    created_at := lit "2025-01-01T00:00:00";
                    exchange_count := 1 |}) as H2 by reflexivity.
  split; [exact H1|]. split; [exact H2|].
  destruct (conversation_only_grows get_default_philosophers
              get_default_authors sample_calls sample_world (lit "c-1") _ H1 H2)
    as (c1 & Hc1 & _ & Hcfg & _ & Hpre & _).
  exists c1. split; [exact Hc1|]. split; [exact Hcfg|exact Hpre].
Defined.

Lemma call_leaves_other_conversations_witness :
  addresses (start_dialogue (lit "sid-1") scenario_config (lit "c-2")
               (lit "2025-01-01T00:01:00") (reply (lit "x")) (reply (lit "y")))
    <> Some (lit "c-1") /\
  active_conversations
    (after (handle get_default_philosophers get_default_authors
              (start_dialogue (lit "sid-1") scenario_config (lit "c-2")
                 (lit "2025-01-01T00:01:00") (reply (lit "x")) (reply (lit "y"))))
       sample_world) !! lit "c-1"
  = active_conversations sample_world !! lit "c-1".
Proof.
  assert (addresses (start_dialogue (lit "sid-1") scenario_config (lit "c-2")
                       (lit "2025-01-01T00:01:00") (reply (lit "x"))
                       (reply (lit "y")))
          <> Some (lit "c-1")) as H by discriminate.
  split; [exact H|].
  exact (call_leaves_other_conversations get_default_philosophers
           get_default_authors _ sample_world (lit "c-1") H).
Defined.

Lemma continue_on_registered_conversation_is_silent_witness :
  active_conversations sample_world !! lit "c-1"
    = Some {| id := lit "c-1"; config := scenario_config; history := two_turns;
              created_at := lit "2025-01-01T00:00:00"; exchange_count := 1 |} /\
  result (handle_continue_dialogue get_default_philosophers get_default_authors
            (lit "sid-1") (Some (lit "c-1")) (reply (lit "a")) (reply (lit "b")))
    sample_world
    = Returned (Crashed (UnboundLocalError (lit "history"))) /\
  after (handle_continue_dialogue get_default_philosophers get_default_authors
           (lit "sid-1") (Some (lit "c-1")) (reply (lit "a")) (reply (lit "b")))
    sample_world = sample_world.
Proof.
  split; [reflexivity|].
  exact (continue_on_registered_conversation_is_silent get_default_philosophers
           get_default_authors (lit "sid-1") (lit "c-1")
           (reply (lit "a")) (reply (lit "b")) sample_world _ eq_refl).
Defined.

End AppMore.

(** * Properties of start-up, sessions, rooms and the health check *)

Module ServerTheory.

Import App Server.

Lemma starts_with_app (p s : str) : starts_with p (p ++ s) = true.
Proof.
  induction p as [|c p IH]; [by destruct s|].
  cbn. by rewrite N.eqb_refl, IH.
Qed.

Lemma ollama_url_keeps_scheme (host : str) :
  has_scheme host = true -> ollama_url (Some host) = host.
Proof.
  destruct host as [|c rest]; [discriminate|].
  intros Hs. unfold ollama_url. cbn [truthy]. by rewrite Hs.
Qed.

(** X13. The backend address always carries a scheme: whatever
    [OLLAMA_HOST] holds (unset, empty, with or without a scheme), the
    address starts with "http://" or "https://"; and the rule is stable:
    an address it produced, given back as [OLLAMA_HOST], is kept as it
    is. *)
Theorem ollama_url_has_a_scheme (OLLAMA_HOST : option str) :
  has_scheme (ollama_url OLLAMA_HOST) = true /\
  ollama_url (Some (ollama_url OLLAMA_HOST)) = ollama_url OLLAMA_HOST.
Proof.
  assert (has_scheme (ollama_url OLLAMA_HOST) = true) as Hs.
  { destruct OLLAMA_HOST as [[|c rest]|]; try reflexivity.
    unfold ollama_url. cbn [truthy].
    destruct (has_scheme (c :: rest)) eqn:Hs; [exact Hs|].
    unfold has_scheme. by rewrite starts_with_app. }
  split; [exact Hs|]. by apply ollama_url_keeps_scheme.
Qed.

(** X14. Start-up never mixes sources: when it succeeds, the catalogs in
    use are either the contents of the two files, both, or the two
    embedded catalogs, both, never one of each; the embedded ones come in
    when a file is missing, also when the other file is there and
    parses. *)
Theorem load_metadata_never_mixes
    (philosophers_json : file (gmap str philosopher))
    (authors_json : file (gmap str author))
    (philosophers : gmap str philosopher) (authors : gmap str author) :
  load_metadata philosophers_json authors_json = loaded philosophers authors ->
  (philosophers_json = holds philosophers /\ authors_json = holds authors) \/
  (philosophers = get_default_philosophers /\ authors = get_default_authors /\
   (philosophers_json = missing \/ authors_json = missing)).
Proof.
  unfold load_metadata.
  destruct philosophers_json as [| |p], authors_json as [| |a];
    intros H; try discriminate H; injection H as <- <-;
    first [ left; split; reflexivity
          | right; split; [reflexivity|]; split; [reflexivity|];
            first [ left; reflexivity | right; reflexivity ] ].
Qed.

(** X15. A client that joins a registered conversation under a non-empty
    identifier enters that conversation's room and is sent, to itself
    only, exactly one [conversation_state] event carrying the record the
    table holds at that moment (config and every turn so far); earlier
    room memberships and the sessions are untouched. *)
Theorem join_delivers_the_current_record (table : gmap str conversation)
    (sid cid : str) (client_type : option str) (s : sessions)
    (conversation : conversation) :
  cid <> [] ->
  table !! cid = Some conversation ->
  answers (handle_join table sid (Some cid) client_type s)
    = answers s ++ [(sid, conversation_state conversation client_type)] /\
  (cid, sid) ∈ rooms (handle_join table sid (Some cid) client_type s) /\
  rooms s ⊆ rooms (handle_join table sid (Some cid) client_type s) /\
  client_sessions (handle_join table sid (Some cid) client_type s)
    = client_sessions s.
Proof.
  intros Hcid Hc. unfold handle_join. rewrite Hc.
  destruct cid as [|c rest]; [done|].
  cbn [truthy answers rooms client_sessions]. repeat split; set_solver.
Qed.

(** X16. Asking about an identifier that is not registered is met with
    silence: [join_conversation] and [get_conversation_history] both
    leave the sessions, the rooms and the answers as they were, so the
    caller gets no event, not even an error. *)
Theorem unknown_conversation_gets_no_answer (table : gmap str conversation)
    (sid : str) (conversation_id client_type : option str) (s : sessions) :
  (forall cid, conversation_id = Some cid -> table !! cid = None) ->
  handle_join table sid conversation_id client_type s = s /\
  handle_get_history table sid conversation_id s = s.
Proof.
  intros Hno. unfold handle_join, handle_get_history.
  destruct conversation_id as [cid|]; cbn [mbind option_bind];
    rewrite ?(Hno _ eq_refl); [|done]. by destruct (truthy cid).
Qed.

(** X17. Disconnecting closes the session that connecting opened: for a
    client that was not connected, connect followed by disconnect gives
    back the session table as it was; after a disconnect the client has no
    session, and a second disconnect changes nothing. *)
Theorem disconnect_undoes_connect (sid connected_at : str) (s : sessions) :
  client_sessions s !! sid = None ->
  client_sessions (handle_disconnect sid (handle_connect sid connected_at s))
    = client_sessions s /\
  client_sessions (handle_disconnect sid (handle_connect sid connected_at s))
    !! sid = None /\
  handle_disconnect sid
    (handle_disconnect sid (handle_connect sid connected_at s))
  = handle_disconnect sid (handle_connect sid connected_at s).
Proof.
  intros Hnew.
  assert (handle_disconnect sid (handle_connect sid connected_at s)
          = {| client_sessions := client_sessions s; rooms := rooms s;
               answers := answers s ++ [(sid, connected sid)] |}) as ->.
  { unfold handle_disconnect, handle_connect. cbn [client_sessions rooms answers].
    by rewrite lookup_insert_eq, (delete_insert_id _ _ _ Hnew). }
  split; [reflexivity|]. split; [exact Hnew|].
  unfold handle_disconnect. cbn [client_sessions]. by rewrite Hnew.
Qed.

Lemma names_returned (models : list (option str)) (ns : list str) :
  names models = Returned ns <-> models = List.map Some ns.
Proof.
  revert ns. induction models as [|[name|] rest IH]; intros ns; cbn.
  - split; [intros [= <-]; reflexivity|]. by destruct ns.
  - destruct (names rest) as [ns'|e] eqn:Hrest.
    + split.
      * intros [= <-]. cbn. f_equal. by apply IH.
      * destruct ns as [|n ns]; [discriminate|]. cbn. intros [= -> Hr].
        apply IH in Hr. by injection Hr as ->.
    + split; [discriminate|]. destruct ns as [|n ns]; [discriminate|].
      cbn. intros [= -> Hr]. apply IH in Hr. discriminate.
  - split; [discriminate|]. by destruct ns.
Qed.

(** X18. The health check answers "healthy" exactly when the request for
    the backend's models succeeded and every listed model has a name (a
    missing list counts as empty); then it lists those names, in order.
    Every other case, an exception of the request included, is the
    "unhealthy" answer.  Both answers report the current numbers of
    conversations and of connected clients. *)
Theorem health_check_is_healthy_iff (table : gmap str conversation)
    (s : sessions) (tags : outcome (option (list (option str)))) :
  (forall conversations clients models,
      health_check table s tags = healthy conversations clients models <->
      conversations = size table /\ clients = size (client_sessions s) /\
      exists listed, tags = Returned listed /\
                     default [] listed = List.map Some models) /\
  (forall conversations clients,
      health_check table s tags = unhealthy conversations clients ->
      conversations = size table /\ clients = size (client_sessions s)).
Proof.
  split.
  - intros conversations clients models. unfold health_check.
    destruct tags as [listed|e].
    + destruct (names (default [] listed)) as [ns|e] eqn:Hn.
      * split.
        -- intros [= <- <- <-]. repeat split. exists listed.
           split; [reflexivity|]. by apply names_returned.
        -- intros (-> & -> & listed' & [= <-] & Hl).
           apply names_returned in Hl. rewrite Hl in Hn. by injection Hn as <-.
      * split; [discriminate|].
        intros (_ & _ & listed' & [= <-] & Hl).
        apply names_returned in Hl. congruence.
    + split; [discriminate|]. by intros (_ & _ & ? & ? & _).
  - intros conversations clients. unfold health_check.
    destruct tags as [listed|e]; [destruct (names _)|]; by intros [= <- <-] || discriminate.
Qed.

(** ** At sample inputs *)

Lemma load_metadata_never_mixes_witness :
  load_metadata (holds (∅ : gmap str philosopher)) missing
    = loaded get_default_philosophers get_default_authors /\
  ((holds (∅ : gmap str philosopher) = holds get_default_philosophers /\
    (missing : file (gmap str author)) = holds get_default_authors) \/
   (get_default_philosophers = get_default_philosophers /\
    get_default_authors = get_default_authors /\
    (holds (∅ : gmap str philosopher) = missing \/
     (missing : file (gmap str author)) = missing))).
Proof.
  split; [reflexivity|].
  apply (load_metadata_never_mixes (holds ∅) missing). reflexivity.
Defined.

Lemma join_delivers_the_current_record_witness :
  lit "c-1" <> [] /\
  active_conversations sample_world !! lit "c-1"
    = Some {| id := lit "c-1"; config := scenario_config; history := two_turns;
              created_at := lit "2025-01-01T00:00:00"; exchange_count := 1 |} /\
  answers (handle_join (active_conversations sample_world) (lit "sid-2")
             (Some (lit "c-1")) (Some (lit "philosopher1")) no_sessions)
  = answers no_sessions ++
    [(lit "sid-2",
      conversation_state
        {| id := lit "c-1"; config := scenario_config; history := two_turns;
           created_at := lit "2025-01-01T00:00:00"; exchange_count := 1 |}
        (Some (lit "philosopher1")))].
Proof.
  assert (lit "c-1" <> []) as H1 by discriminate.
  assert (active_conversations sample_world !! lit "c-1"
          = Some {| id := lit "c-1"; config := scenario_config;
                    history := two_turns;
                    created_at := lit "2025-01-01T00:00:00";
                    exchange_count := 1 |}) as H2 by reflexivity.
  split; [exact H1|]. split; [exact H2|].
  exact (proj1 (join_delivers_the_current_record _ (lit "sid-2") _
                  (Some (lit "philosopher1")) no_sessions _ H1 H2)).
Defined.

Lemma unknown_conversation_gets_no_answer_witness :
  (forall cid, Some (lit "c-404") = Some cid ->
               active_conversations sample_world !! cid = None) /\
  handle_join (active_conversations sample_world) (lit "sid-2")
    (Some (lit "c-404")) None no_sessions = no_sessions /\
  handle_get_history (active_conversations sample_world) (lit "sid-2")
    (Some (lit "c-404")) no_sessions = no_sessions.
Proof.
  assert (forall cid, Some (lit "c-404") = Some cid ->
                      active_conversations sample_world !! cid = None) as H
    by (intros cid [= <-]; reflexivity).
  split; [exact H|].
  exact (unknown_conversation_gets_no_answer _ (lit "sid-2") _ None
           no_sessions H).
Defined.

Lemma disconnect_undoes_connect_witness :
  client_sessions no_sessions !! lit "sid-1" = None /\
  client_sessions
    (handle_disconnect (lit "sid-1")
       (handle_connect (lit "sid-1") (lit "2025-01-01T00:00:00") no_sessions))
  = client_sessions no_sessions.
Proof.
  split; [reflexivity|].
  exact (proj1 (disconnect_undoes_connect (lit "sid-1")
                  (lit "2025-01-01T00:00:00") no_sessions eq_refl)).
Defined.

End ServerTheory.

(** * Further properties of dialogue-backend.py *)

Module BackendMore.

Import Backend BackendTheory Html.
Local Open Scope Z_scope.

Section facts.
Context (title : str -> str).

Local Abbreviation exchange := (exchange title).
Local Abbreviation exchanges := (exchanges title).
Local Abbreviation generate_dialogue := (generate_dialogue title).
Local Abbreviation create_philosopher_prompt := (create_philosopher_prompt title).

Ltac getitem_or_raise E :=
  unfold bind at 1, lift at 1, getitem at 1 in E;
  match type of E with
  | context [?data !! ?k] =>
      destruct (data !! k);
      cbv beta iota in E;
      [|subst; right; eexists _, _; split; [reflexivity|];
        split; [reflexivity|]; split; [reflexivity|]; left; reflexivity]
  end.

Ltac settle_response E :=
  unfold bind at 1 in E; rewrite generate_response_run in E;
  match type of E with
  | context [html ?a] =>
      let Ha := fresh "Ha" in
      destruct (html a) eqn:Ha; cbv beta iota in E; subst;
      [ left; eexists _, _; split; [reflexivity|]; split; reflexivity
      | right; eexists _, _; split; [reflexivity|];
        cbn [history yielded requested];
        split; [reflexivity|]; split; [reflexivity|];
        right; split; [eexists; reflexivity|reflexivity] ]
  end.

(** One round either yields its message, which it also appends to the
    history, or raises without yielding or appending anything. *)
Lemma exchange_cases (data : gmap str str) (i : nat) (a : answer) (s : session) :
  (exists (m : message) (r : str * str),
     exchange data i a s
     = (Returned tt,
        {| history := history s ++ [m];
           yielded := yielded s ++ [message_event m];
           requested := requested s ++ [r] |}) /\
     pairing m = (if first (length (history s)) i then 1 else 2) /\
     html a = Returned (msg_content m)) \/
  (exists (e : exn) (s' : session),
     exchange data i a s = (Raised e, s') /\
     history s' = history s /\ yielded s' = yielded s /\
     (s' = s \/
      (exists r, requested s' = requested s ++ [r]) /\ html a = Raised e)).
Proof.
  remember (exchange data i a s) as res eqn:E.
  unfold Backend.exchange in E.
  unfold bind at 1 in E. cbn [get_history] in E. cbv zeta in E.
  destruct (first (length (history s)) i).
  - do 3 getitem_or_raise E.
    unfold bind at 1 in E.
    destruct (0 <? Z.of_nat (length (history s))).
    + getitem_or_raise E. unfold bind at 1, ret at 1 in E. cbv beta iota in E.
      getitem_or_raise E. settle_response E.
    + unfold ret at 1 in E. cbv beta iota in E.
      getitem_or_raise E. settle_response E.
  - do 3 getitem_or_raise E.
    unfold bind at 1 in E. getitem_or_raise E.
    unfold ret at 1 in E. cbv beta iota in E.
    getitem_or_raise E. settle_response E.
Qed.

(** X19. What a request yields has one of three shapes: two messages; one
    message and then an error; or an error alone.  So at most two messages
    are yielded, an error is always the last item and ends the stream,
    and the history ends up as the history sent followed by exactly the
    messages yielded.  The model is asked at most twice, and at least once
    per message. *)
Theorem generate_dialogue_yields_messages_then_at_most_one_error
    (data : gmap str str) (sent : option (list message)) (a1 a2 : answer) :
  exists (ms : list message) (err : option exn),
    yielded (generate_dialogue data sent a1 a2)
      = List.map message_event ms ++
        match err with
        | Some e => [error_event e]
        | None => []
        end /\
    history (generate_dialogue data sent a1 a2) = default [] sent ++ ms /\
    (length ms <= 2)%nat /\
    (err = None <-> length ms = 2%nat) /\
    (length ms <= length (requested (generate_dialogue data sent a1 a2)) <= 2)%nat.
Proof.
  remember (generate_dialogue data sent a1 a2) as out eqn:E.
  unfold Backend.generate_dialogue, after, try_except in E.
  cbn [Backend.exchanges] in E. unfold bind at 1 in E.
  destruct (exchange_cases data 0 a1
              {| history := default [] sent; yielded := []; requested := [] |})
    as [(m1 & r1 & E1 & _)|(e & s' & E1 & Hh & Hy & Hr)];
    rewrite E1 in E; clear E1.
  2:{ unfold yield in E. cbn [snd history yielded requested] in *. subst out.
      exists [], (Some e). cbn [history yielded requested].
      rewrite Hh, Hy, app_nil_r. cbn [List.map app length].
      split; [reflexivity|]. split; [reflexivity|]. split; [lia|].
      split; [split; discriminate|].
      destruct Hr as [->|[[r ->] _]]; cbn; lia. }
  unfold bind at 1 in E.
  match type of E with context [exchange data 1 a2 ?s] =>
    destruct (exchange_cases data 1 a2 s)
      as [(m2 & r2 & E2 & _)|(e & s' & E2 & Hh & Hy & Hr)];
      rewrite E2 in E; clear E2
  end.
  - cbn [snd history yielded requested ret] in E. subst out.
    exists [m1; m2], None. cbn [history yielded requested].
    cbn [List.map app length]. rewrite <- app_assoc.
    split; [reflexivity|]. split; [reflexivity|]. split; [lia|].
    split; [done|]. cbn. lia.
  - unfold yield in E. cbn [snd history yielded requested] in *. subst out.
    exists [m1], (Some e). cbn [history yielded requested].
    rewrite Hh, Hy. cbn [List.map app length].
    split; [reflexivity|]. split; [reflexivity|]. split; [lia|].
    split; [split; discriminate|].
    destruct Hr as [->|[[r ->] _]]; cbn; lia.
Qed.

(** X20. A request whose first round cannot even name its philosopher
    (the field of the pairing chosen by the parity of the history sent is
    missing) yields a single error event, for that key, asks nothing of
    the model and appends nothing. *)
Theorem missing_philosopher_field_yields_one_error
    (data : gmap str str) (sent : option (list message)) (a1 a2 : answer)
    (key : str) :
  key = (if first (length (default [] sent)) 0
         then lit "philosopher1" else lit "philosopher2") ->
  data !! key = None ->
  yielded (generate_dialogue data sent a1 a2) = [error_event (KeyError key)] /\
  requested (generate_dialogue data sent a1 a2) = [] /\
  history (generate_dialogue data sent a1 a2) = default [] sent.
Proof.
  intros -> Hmissing.
  remember (generate_dialogue data sent a1 a2) as out eqn:E.
  unfold Backend.generate_dialogue, after, try_except in E.
  cbn [Backend.exchanges] in E. unfold bind at 1 in E.
  unfold Backend.exchange in E.
  unfold bind at 1 in E. cbn [get_history history] in E. cbv zeta in E.
  unfold bind at 1, lift at 1, getitem at 1 in E. rewrite Hmissing in E.
  cbv beta iota in E. cbn [snd yield yielded requested history app] in E.
  by subst out.
Qed.

Ltac getitem_with H :=
  unfold bind at 1, lift at 1, getitem at 1; rewrite H; cbv beta iota.

Section complete_request.
Context (data : gmap str str).
Context (philosopher1 author1 model1 philosopher2 author2 model2 topic : str).
Hypothesis Hphilosopher1 : data !! lit "philosopher1" = Some philosopher1.
Hypothesis Hauthor1 : data !! lit "author1" = Some author1.
Hypothesis Hmodel1 : data !! lit "model1" = Some model1.
Hypothesis Hphilosopher2 : data !! lit "philosopher2" = Some philosopher2.
Hypothesis Hauthor2 : data !! lit "author2" = Some author2.
Hypothesis Hmodel2 : data !! lit "model2" = Some model2.
Hypothesis Htopic : data !! lit "topic" = Some topic.

Lemma exchange_raises (i : nat) (a : answer) (s : session) (e : exn) :
  html a = Raised e ->
  exists request : str * str,
    exchange data i a s =
    (Raised e,
     {| history := history s; yielded := yielded s;
        requested := requested s ++ [request] |}).
Proof using Hphilosopher1 Hauthor1 Hmodel1 Hphilosopher2 Hauthor2 Hmodel2 Htopic.
  intros Hhtml. unfold Backend.exchange.
  unfold bind at 1. cbn [get_history]. cbv zeta.
  destruct (first (length (history s)) i).
  - getitem_with Hphilosopher1. getitem_with Hauthor1. getitem_with Hmodel1.
    unfold bind at 1.
    destruct (0 <? Z.of_nat (length (history s))).
    + getitem_with Hphilosopher2. unfold bind at 1, ret at 1. cbv beta iota.
      getitem_with Htopic. unfold bind at 1.
      rewrite (generate_response_run title), Hhtml. eexists. reflexivity.
    + unfold ret at 1. cbv beta iota.
      getitem_with Htopic. unfold bind at 1.
      rewrite (generate_response_run title), Hhtml. eexists. reflexivity.
  - getitem_with Hphilosopher2. getitem_with Hauthor2. getitem_with Hmodel2.
    unfold bind at 1. getitem_with Hphilosopher1. unfold ret at 1. cbv beta iota.
    getitem_with Htopic. unfold bind at 1.
    rewrite (generate_response_run title), Hhtml. eexists. reflexivity.
Qed.

Lemma first_answer_raising (sent : option (list message)) (a1 a2 : answer)
    (e : exn) :
  html a1 = Raised e ->
  yielded (generate_dialogue data sent a1 a2) = [error_event e] /\
  history (generate_dialogue data sent a1 a2) = default [] sent /\
  length (requested (generate_dialogue data sent a1 a2)) = 1%nat.
Proof using Hphilosopher1 Hauthor1 Hmodel1 Hphilosopher2 Hauthor2 Hmodel2 Htopic.
  intros H1.
  remember (generate_dialogue data sent a1 a2) as out eqn:E.
  unfold Backend.generate_dialogue, after, try_except in E.
  cbn [Backend.exchanges] in E. unfold bind at 1 in E.
  destruct (exchange_raises 0 a1
              {| history := default [] sent; yielded := []; requested := [] |}
              e H1) as [r E1].
  rewrite E1 in E. cbn [snd yield yielded requested history app] in E.
  by subst out.
Qed.

Lemma second_answer_raising (sent : option (list message)) (a1 a2 : answer)
    (text : str) (e : exn) :
  html a1 = Returned text -> html a2 = Raised e ->
  exists m : message,
    yielded (generate_dialogue data sent a1 a2)
      = [message_event m; error_event e] /\
    msg_content m = text /\
    history (generate_dialogue data sent a1 a2) = default [] sent ++ [m] /\
    length (requested (generate_dialogue data sent a1 a2)) = 2%nat.
Proof using Hphilosopher1 Hauthor1 Hmodel1 Hphilosopher2 Hauthor2 Hmodel2 Htopic.
  intros H1 H2.
  remember (generate_dialogue data sent a1 a2) as out eqn:E.
  unfold Backend.generate_dialogue, after, try_except in E.
  cbn [Backend.exchanges] in E. unfold bind at 1 in E.
  destruct (exchange_run title data _ _ _ _ _ _ _ Hphilosopher1 Hauthor1 Hmodel1
              Hphilosopher2 Hauthor2 Hmodel2 Htopic 0 a1
              {| history := default [] sent; yielded := []; requested := [] |}
              text H1) as [r1 E1].
  rewrite E1 in E. clear E1.
  cbn [history yielded requested] in E. unfold bind at 1 in E.
  match type of E with context [exchange data 1 a2 ?s] =>
    destruct (exchange_raises 1 a2 s e H2) as [r2 E2]
  end.
  rewrite E2 in E. clear E2.
  cbn [snd yield yielded requested history app] in E. subst out.
  eexists. cbn [yielded history requested msg_content].
  split; [reflexivity|]. split; [reflexivity|]. split; reflexivity.
Qed.

End complete_request.

(** X21. When the model fails, a complete request ends there: if the
    first answer raises, the stream is that one error, the history is
    untouched and the model was asked once; if the second answer raises,
    the stream is the first message and then the error, the history has
    grown by that message only, and the model was asked twice.  Nothing
    is retried. *)
Theorem model_failure_ends_the_request (data : gmap str str)
    (philosopher1 author1 model1 philosopher2 author2 model2 topic : str)
    (sent : option (list message)) (a1 a2 : answer) (e : exn) :
  data !! lit "philosopher1" = Some philosopher1 ->
  data !! lit "author1" = Some author1 ->
  data !! lit "model1" = Some model1 ->
  data !! lit "philosopher2" = Some philosopher2 ->
  data !! lit "author2" = Some author2 ->
  data !! lit "model2" = Some model2 ->
  data !! lit "topic" = Some topic ->
  (html a1 = Raised e ->
   yielded (generate_dialogue data sent a1 a2) = [error_event e] /\
   history (generate_dialogue data sent a1 a2) = default [] sent /\
   length (requested (generate_dialogue data sent a1 a2)) = 1%nat) /\
  (forall text, html a1 = Returned text -> html a2 = Raised e ->
   exists m : message,
     yielded (generate_dialogue data sent a1 a2)
       = [message_event m; error_event e] /\
     msg_content m = text /\
     history (generate_dialogue data sent a1 a2) = default [] sent ++ [m] /\
     length (requested (generate_dialogue data sent a1 a2)) = 2%nat).
Proof.
  intros. split.
  - by eapply first_answer_raising.
  - intros. by eapply second_answer_raising.
Qed.

(** X22. When both answers arrive, the two messages of a request come
    from one and the same pairing, the one that the parity of the length
    of the history sent selects (pairing 1 for an even length, pairing 2
    for an odd one): the other pairing does not speak in that request. *)
Theorem both_messages_come_from_one_pairing (data : gmap str str)
    (philosopher1 author1 model1 philosopher2 author2 model2 topic : str)
    (sent : option (list message)) (a1 a2 : answer) (text1 text2 : str) :
  data !! lit "philosopher1" = Some philosopher1 ->
  data !! lit "author1" = Some author1 ->
  data !! lit "model1" = Some model1 ->
  data !! lit "philosopher2" = Some philosopher2 ->
  data !! lit "author2" = Some author2 ->
  data !! lit "model2" = Some model2 ->
  data !! lit "topic" = Some topic ->
  html a1 = Returned text1 -> html a2 = Returned text2 ->
  exists m1 m2 : message,
    yielded (generate_dialogue data sent a1 a2)
      = [message_event m1; message_event m2] /\
    pairing m1 = (if Nat.even (length (default [] sent)) then 1 else 2) /\
    pairing m2 = pairing m1 /\
    msg_philosopher m2 = msg_philosopher m1.
Proof.
  intros H1 H2 H3 H4 H5 H6 H7 Ha1 Ha2.
  destruct (generate_dialogue_same_pairing title data _ _ _ _ _ _ _
              H1 H2 H3 H4 H5 H6 H7 sent a1 a2 text1 text2 Ha1 Ha2)
    as (m1 & m2 & Hy & Hp1 & Hp2 & Hph).
  exists m1, m2. split; [exact Hy|]. split; [|by split].
  rewrite Hp1. unfold first. cbn [Z.of_nat]. rewrite Z.add_0_r.
  by rewrite <- Zeven_mod, AppTheory.even_of_nat.
Qed.

(** ** Prompt composition *)

Lemma truthy_last_n {A} (n : nat) (l : list A) :
  truthy (last_n (S n) l) = truthy l.
Proof.
  unfold last_n. destruct l as [|x l]; [reflexivity|].
  destruct (drop (length (x :: l) - S n) (x :: l)) eqn:E; [|reflexivity].
  apply (f_equal length) in E. rewrite length_drop in E. cbn in E. lia.
Qed.

Lemma last_n_last_n {A} (n : nat) (l : list A) :
  last_n n (last_n n l) = last_n n l.
Proof.
  unfold last_n at 1. rewrite (proj2 (Nat.sub_0_le _ _)); [reflexivity|].
  unfold last_n. rewrite length_drop. lia.
Qed.

Lemma history_part_quoted (e e' : message) :
  quoted e = quoted e' -> history_part title e = history_part title e'.
Proof.
  unfold quoted, history_part, slice_to. by intros [= -> ->].
Qed.

(** X23. The prompt reads the history only through its last four
    entries, and of each only who spoke and the first 500 characters of
    what was said: two histories that agree on that give the same prompt,
    however long they are and whatever else their entries hold. *)
Theorem prompt_reads_the_last_four_entries
    (philosopher_key author_key topic : str) (h h' : list message)
    (is_response : bool) (other_philosopher : option str) :
  List.map quoted (last_n 4 h) = List.map quoted (last_n 4 h') ->
  create_philosopher_prompt philosopher_key author_key topic h is_response
    other_philosopher
  = create_philosopher_prompt philosopher_key author_key topic h' is_response
      other_philosopher.
Proof.
  intros Hq. unfold Backend.create_philosopher_prompt.
  assert (truthy h = truthy h') as ->.
  { rewrite <- (truthy_last_n 3 h), <- (truthy_last_n 3 h').
    apply (f_equal (@length _)) in Hq. rewrite !length_map in Hq.
    destruct (last_n 4 h), (last_n 4 h'); done. }
  assert (List.map (history_part title) (last_n 4 h)
          = List.map (history_part title) (last_n 4 h')) as ->; [|reflexivity].
  revert Hq. generalize (last_n 4 h) (last_n 4 h').
  intros l. induction l as [|e l IH]; intros [|e' l']; try done.
  cbn. intros [= Hq1 Hq2 Hq3]. f_equal; [|by apply IH].
  apply history_part_quoted. unfold quoted. by rewrite Hq1, Hq2.
Qed.

End facts.

(** ** From the model's answer to HTML *)

Lemma lstrip_spaces (s : str) : forallb is_space s = true -> lstrip s = [].
Proof.
  induction s as [|c s IH]; [reflexivity|]. cbn.
  intros [Hc Hs]%andb_prop. rewrite Hc. by apply IH.
Qed.

Lemma lstrip_head (s : str) :
  lstrip s = [] \/ exists c rest, lstrip s = c :: rest /\ is_space c = false.
Proof.
  induction s as [|c s IH]; [by left|]. cbn.
  destruct (is_space c) eqn:Hc; [exact IH|]. right. eauto.
Qed.

Lemma rstrip_head (c : char) (rest : str) :
  is_space c = false -> exists kept, rstrip (c :: rest) = c :: kept.
Proof.
  intros Hc. cbn. destruct (rstrip rest); [rewrite Hc|]; eauto.
Qed.

Lemma rstrip_rstrip (s : str) : rstrip (rstrip s) = rstrip s.
Proof.
  induction s as [|c s IH]; [reflexivity|]. cbn.
  destruct (rstrip s) as [|k kept] eqn:E.
  - destruct (is_space c) eqn:Hc; [reflexivity|]. cbn. by rewrite Hc.
  - cbn [rstrip]. cbn [rstrip] in IH. by rewrite IH.
Qed.

Lemma strip_strip (s : str) : strip (strip s) = strip s.
Proof.
  unfold strip. destruct (lstrip_head s) as [->|(c & rest & -> & Hc)];
    [reflexivity|].
  destruct (rstrip_head c rest Hc) as [kept Hk]. rewrite Hk.
  cbn [lstrip]. rewrite Hc, <- Hk. apply rstrip_rstrip.
Qed.

Lemma split_from_no_occurrence (sep s : str) :
  forall piece,
    str_contains sep s = false ->
    split_from sep 0 piece s = [reverse piece ++ s].
Proof.
  induction s as [|c s IH]; intros piece Hno.
  - cbn. by rewrite app_nil_r.
  - cbn [str_contains] in Hno. apply orb_false_elim in Hno as [Hhere Hlater].
    cbn [split_from]. rewrite Hhere, (IH _ Hlater).
    by rewrite reverse_cons, <- app_assoc.
Qed.

(** X24. An answer that is nothing but whitespace (or is empty) becomes
    the empty HTML string: no paragraph is produced, not even an empty
    one. *)
Theorem blank_answer_gives_empty_html (text : str) :
  forallb is_space text = true -> to_html text = [].
Proof.
  intros Hblank. unfold to_html, strip. by rewrite (lstrip_spaces _ Hblank).
Qed.

(** X25. An answer that, once stripped, is not empty and holds no blank
    line becomes exactly one paragraph: the stripped text between [<p>]
    and [</p>], single line breaks kept. *)
Theorem answer_without_blank_line_is_one_paragraph (text : str) :
  strip text <> [] ->
  str_contains blank_line (strip text) = false ->
  to_html text = lit "<p>" ++ strip text ++ lit "</p>".
Proof.
  intros Hsome Hno. unfold to_html, split. cbv zeta.
  rewrite (split_from_no_occurrence _ _ [] Hno).
  change (reverse [] ++ strip text) with (strip text).
  cbn [List.filter]. rewrite strip_strip.
  assert (truthy (strip text) = true) as -> by (by destruct (strip text)).
  cbn [List.map concat]. unfold paragraph.
  by rewrite strip_strip, app_nil_r.
Qed.

(** X26. The HTML is always a run of paragraphs, each [<p>...</p>] around
    a text that is not empty and has neither leading nor trailing
    whitespace: blank pieces leave no empty paragraph behind. *)
Theorem html_paragraphs_are_trimmed_and_not_empty (text : str) :
  exists pieces : list str,
    to_html text
      = concat (List.map (fun q => lit "<p>" ++ q ++ lit "</p>") pieces) /\
    Forall (fun q => q <> [] /\ strip q = q) pieces.
Proof.
  unfold to_html. cbv zeta.
  exists (List.map strip
            (List.filter (fun p => truthy (strip p))
               (split blank_line (strip text)))).
  split.
  - by rewrite List.map_map.
  - apply Forall_forall. intros q Hq.
    apply list_elem_of_In, in_map_iff in Hq as (p & <- & Hp).
    apply filter_In in Hp as [_ Hp]. split; [|apply strip_strip].
    by destruct (strip p).
Qed.

(** ** At sample inputs *)

Lemma missing_philosopher_field_yields_one_error_witness :
  lit "philosopher1"
    = (if first (length (default [] (None : option (list message)))) 0
       then lit "philosopher1" else lit "philosopher2") /\
  (∅ : gmap str str) !! lit "philosopher1" = None /\
  yielded (generate_dialogue as_is ∅ None
             (answer_of (Returned (lit "a")) []) (answer_of (Returned (lit "b")) []))
  = [error_event (KeyError (lit "philosopher1"))].
Proof.
  split; [reflexivity|]. split; [reflexivity|].
  exact (proj1 (missing_philosopher_field_yields_one_error as_is ∅ None
                  (answer_of (Returned (lit "a")) [])
                  (answer_of (Returned (lit "b")) [])
                  (lit "philosopher1") eq_refl eq_refl)).
Defined.

Lemma model_failure_ends_the_request_witness :
  App.scenario_config !! lit "philosopher1" = Some (lit "socrates") /\
  App.scenario_config !! lit "author1" = Some (lit "hemingway") /\
  App.scenario_config !! lit "model1" = Some (lit "llama3.2:3b") /\
  App.scenario_config !! lit "philosopher2" = Some (lit "kant") /\
  App.scenario_config !! lit "author2" = Some (lit "woolf") /\
  App.scenario_config !! lit "model2" = Some (lit "mistral:7b") /\
  App.scenario_config !! lit "topic" = Some (lit "free will") /\
  html (answer_of (Raised (RequestError (lit "connection refused"))) [])
    = Raised (RequestError (lit "connection refused")) /\
  yielded (generate_dialogue as_is App.scenario_config (Some sent_history)
             (answer_of (Raised (RequestError (lit "connection refused"))) [])
             (answer_of (Returned (lit "b")) []))
  = [error_event (RequestError (lit "connection refused"))].
Proof.
  repeat (split; [reflexivity|]).
  exact (proj1 (proj1 (model_failure_ends_the_request as_is App.scenario_config
                         _ _ _ _ _ _ _ (Some sent_history)
                         (answer_of (Raised (RequestError (lit "connection refused"))) [])
                         (answer_of (Returned (lit "b")) [])
                         (RequestError (lit "connection refused"))
                         eq_refl eq_refl eq_refl eq_refl eq_refl eq_refl eq_refl)
                  eq_refl)).
Defined.

Lemma both_messages_come_from_one_pairing_witness :
  App.scenario_config !! lit "philosopher1" = Some (lit "socrates") /\
  App.scenario_config !! lit "author1" = Some (lit "hemingway") /\
  App.scenario_config !! lit "model1" = Some (lit "llama3.2:3b") /\
  App.scenario_config !! lit "philosopher2" = Some (lit "kant") /\
  App.scenario_config !! lit "author2" = Some (lit "woolf") /\
  App.scenario_config !! lit "model2" = Some (lit "mistral:7b") /\
  App.scenario_config !! lit "topic" = Some (lit "free will") /\
  html (answer_of (Returned (lit "a")) []) = Returned (lit "<p>a</p>") /\
  html (answer_of (Returned (lit "b")) []) = Returned (lit "<p>b</p>") /\
  exists m1 m2 : message,
    yielded (generate_dialogue as_is App.scenario_config None
               (answer_of (Returned (lit "a")) [])
               (answer_of (Returned (lit "b")) []))
      = [message_event m1; message_event m2] /\
    pairing m2 = pairing m1.
Proof.
  repeat (split; [reflexivity|]).
  destruct (both_messages_come_from_one_pairing as_is App.scenario_config
              _ _ _ _ _ _ _ None
              (answer_of (Returned (lit "a")) [])
              (answer_of (Returned (lit "b")) [])
              (lit "<p>a</p>") (lit "<p>b</p>")
              eq_refl eq_refl eq_refl eq_refl eq_refl eq_refl eq_refl
              eq_refl eq_refl)
    as (m1 & m2 & Hy & _ & Hp & _).
  exists m1, m2. split; [exact Hy|exact Hp].
Defined.

Lemma prompt_reads_the_last_four_entries_witness :
  List.map quoted (last_n 4 five_messages)
    = List.map quoted (last_n 4 (drop 1 five_messages)) /\
  create_philosopher_prompt as_is (lit "kant") (lit "woolf") (lit "free will")
    five_messages true (Some (lit "socrates"))
  = create_philosopher_prompt as_is (lit "kant") (lit "woolf") (lit "free will")
      (drop 1 five_messages) true (Some (lit "socrates")).
Proof.
  split; [reflexivity|].
  exact (prompt_reads_the_last_four_entries as_is (lit "kant") (lit "woolf")
           (lit "free will") five_messages (drop 1 five_messages) true
           (Some (lit "socrates")) eq_refl).
Defined.

Lemma blank_answer_gives_empty_html_witness :
  forallb is_space (lit "  " ++ nl ++ nl ++ [160%N]) = true /\
  to_html (lit "  " ++ nl ++ nl ++ [160%N]) = [].
Proof.
  split; [reflexivity|].
  exact (blank_answer_gives_empty_html (lit "  " ++ nl ++ nl ++ [160%N]) eq_refl).
Defined.

Lemma answer_without_blank_line_is_one_paragraph_witness :
  strip (lit " Know" ++ nl ++ lit "thyself. ") <> [] /\
  str_contains blank_line (strip (lit " Know" ++ nl ++ lit "thyself. ")) = false /\
  to_html (lit " Know" ++ nl ++ lit "thyself. ")
  = lit "<p>" ++ strip (lit " Know" ++ nl ++ lit "thyself. ") ++ lit "</p>".
Proof.
  assert (strip (lit " Know" ++ nl ++ lit "thyself. ") <> []) as H
    by discriminate.
  split; [exact H|]. split; [reflexivity|].
  exact (answer_without_blank_line_is_one_paragraph _ H eq_refl).
Defined.

End BackendMore.
